(** * Pipeline coordination substrate of the medical-coding dataset generator

    A shallow embedding of the adaptive batch controller, the predictor
    gateway, the store operations behind resumable stages, the TF-IDF
    retrieval engine's ranking loop with its cache files, and the run lock,
    with the properties of the design document stated and proved against
    them.

    Conventions.  Python [int] is [Z].  A Python [float] that is compared
    but never rounded (a success rate, a similarity score, a clock reading)
    is the rational it denotes, in [Q]; float literals are the exact
    binary64 values they denote.  Text is [string]. *)

From Stdlib Require Import ZArith QArith List Lia Sorting.Sorted Permutation Ascii String.
From stdpp Require Import gmap strings list.

Local Open Scope Z_scope.

(** Python's [<] and [>=] on floats. *)
Definition Qltb (a b : Q) : bool := if Qlt_le_dec a b then true else false.
Definition Qgeb (a b : Q) : bool := if Qlt_le_dec a b then false else true.

(** ** Adaptive batch sizing ([chapter_2.py], [plugin_adapter.py]) *)

Module Controller.

(** The literals [0.5], [0.7] and [0.9] as the binary64 numbers Python
    reads them as: [0.5] is exact, [0.7] lies just below 7/10 and [0.9] just
    above 9/10. *)
Definition lit_0_5 : Q := (1 # 2)%Q.
Definition lit_0_7 : Q := (3152519739159347 # 4503599627370496)%Q.
Definition lit_0_9 : Q := (8106479329266893 # 9007199254740992)%Q.
(** The rates used in the design document's examples, as binary64. *)
Definition lit_0_3 : Q := (5404319552844595 # 18014398509481984)%Q.
Definition lit_0_6 : Q := (5404319552844595 # 9007199254740992)%Q.
Definition lit_0_95 : Q := (4278419646001971 # 4503599627370496)%Q.

(** The four attributes of [AdaptiveBatchManager]. *)
Record AdaptiveBatchManager : Type := mkManager {
  current_batch_size : Z;
  max_batch_size : Z;
  consecutive_successes : Z;
  consecutive_failures : Z
}.

(** [AdaptiveBatchManager.__init__]. *)
Definition init (initial_batch_size max_batch_size : Z) : AdaptiveBatchManager :=
  mkManager initial_batch_size max_batch_size 0 0.

(** The constructor's defaults: [initial_batch_size=1, max_batch_size=20]. *)
Definition default_initial_batch_size : Z := 1.
Definition default_max_batch_size : Z := 20.

(** [AdaptiveBatchManager.adjust]: the object after the call.  The branches
    are in the order of the source's [if]/[elif] chain; [//] is floor
    division. *)
Definition adjust_state (self : AdaptiveBatchManager) (success_rate : Q)
  : AdaptiveBatchManager :=
  if Qltb success_rate lit_0_5 then
    mkManager (Z.max 1 (current_batch_size self / 2)) (max_batch_size self) 0 0
  else if Qltb success_rate lit_0_7 then
    let failures := consecutive_failures self + 1 in
    if 1 <=? failures then
      mkManager (Z.max 1 (current_batch_size self - 2)) (max_batch_size self) 0 0
    else
      mkManager (current_batch_size self) (max_batch_size self) 0 failures
  else if Qgeb success_rate lit_0_9 then
    let successes := consecutive_successes self + 1 in
    if 3 <=? successes then
      mkManager (Z.min (max_batch_size self) (current_batch_size self + 1))
                (max_batch_size self) 0 0
    else
      mkManager (current_batch_size self) (max_batch_size self) successes 0
  else
    (* 70-90% success: maintain current batch size *)
    mkManager (current_batch_size self) (max_batch_size self) 0 0.

(** [adjust] returns the new size; [get_size] reads it. *)
Definition get_size (self : AdaptiveBatchManager) : Z := current_batch_size self.

Definition adjust (self : AdaptiveBatchManager) (success_rate : Q)
  : AdaptiveBatchManager * Z :=
  let self' := adjust_state self success_rate in (self', get_size self').

(** A sequence of calls on one object: the final object and the value each
    call returned. *)
Fixpoint adjust_all (self : AdaptiveBatchManager) (rates : list Q)
  : AdaptiveBatchManager * list Z :=
  match rates with
  | [] => (self, [])
  | r :: rates' =>
      let '(self1, size1) := adjust self r in
      let '(self2, sizes) := adjust_all self1 rates' in
      (self2, size1 :: sizes)
  end.

End Controller.

(** The same controller inlined in [PluginAdapter], which also appends a
    [batch_size] point to the time series whenever the size changed. *)
Module PluginAdapter.

Record adapter : Type := mkAdapter {
  current_batch_size : Z;
  max_batch_size : Z;
  consecutive_successes : Z;
  consecutive_failures : Z;
  (** values written by [db.record_time_series(name, 'batch_size', _)],
      newest first *)
  batch_size_series : list Z
}.

(** [PluginAdapter.__init__], the fields of the controller: size 1,
    ceiling 20, counters 0. *)
Definition init : adapter := mkAdapter 1 20 0 0 [].

Definition _adjust_batch_size (self : adapter) (success_rate : Q) : adapter :=
  let old_batch_size := current_batch_size self in
  let '(size, succ, fail) :=
    if Qltb success_rate Controller.lit_0_5 then
      (Z.max 1 (current_batch_size self / 2), 0, 0)
    else if Qltb success_rate Controller.lit_0_7 then
      let failures := consecutive_failures self + 1 in
      if 1 <=? failures then (Z.max 1 (current_batch_size self - 2), 0, 0)
      else (current_batch_size self, 0, failures)
    else if Qgeb success_rate Controller.lit_0_9 then
      let successes := consecutive_successes self + 1 in
      if 3 <=? successes then
        (Z.min (max_batch_size self) (current_batch_size self + 1), 0, 0)
      else (current_batch_size self, successes, 0)
    else
      (current_batch_size self, 0, 0) in
  (* record the change in the time series *)
  mkAdapter size (max_batch_size self) succ fail
    (if size =? old_batch_size then batch_size_series self
     else size :: batch_size_series self).

Definition get_adaptive_batch_size (self : adapter) : Z := current_batch_size self.

(** The controller fields of an adapter, read as a batch manager. *)
Definition manager_of (a : adapter) : Controller.AdaptiveBatchManager :=
  Controller.mkManager (current_batch_size a) (max_batch_size a)
    (consecutive_successes a) (consecutive_failures a).

Definition adjust_all (self : adapter) (rates : list Q) : adapter :=
  fold_left _adjust_batch_size rates self.

End PluginAdapter.


(** ** External predictor gateway ([chapter_2.py], [chapter_3.py]) *)

Module Gateway.

(** Python's [str.isspace] on the ASCII range: tab, line feed, vertical tab,
    form feed, carriage return, the four separators 0x1c-0x1f and space. *)
Definition is_space (c : ascii) : bool :=
  let n := nat_of_ascii c in
  ((9 <=? n) && (n <=? 13) || (28 <=? n) && (n <=? 32))%nat.

(** [len(s.split())] on ASCII text: the number of maximal runs of
    non-whitespace characters.  [in_word] tells whether the previous
    character belonged to a run. *)
Fixpoint count_words (in_word : bool) (s : string) : Z :=
  match s with
  | EmptyString => 0
  | String c s' =>
      if is_space c then count_words false s'
      else (if in_word then 0 else 1) + count_words true s'
  end.

Definition split_len (s : string) : Z := count_words false s.

(** What [subprocess.run(argv, capture_output=True, text=True, timeout=t)]
    does: it returns a completed process or raises.  The exceptions are the
    subclasses of [Exception] the call can raise: [TimeoutExpired], and any
    other (an [OSError] when the executable is missing, a [ValueError] for
    an unusable argument, ...) with the text [str(e)] gives for it. *)
Inductive exn : Type :=
| TimeoutExpired
| OtherException (str_e : string).

Inductive py (A : Type) : Type :=
| Return (a : A)
| Raise (e : exn).
Arguments Return {A} a.
Arguments Raise {A} e.

Record CompletedProcess : Type := {
  returncode : Z;
  stdout : string;
  stderr : string
}.

(** The world a call runs in: the subprocess as a function of its argument
    vector and timeout, and the two readings of [time.time()], before the
    call and when the elapsed time is computed. *)
Record world : Type := {
  subprocess_run : list string -> Z -> py CompletedProcess;
  time_before : Q;
  time_after : Q
}.

(** The dictionary both gateways return. *)
Record result : Type := mkResult {
  r_success : bool;
  r_stdout : string;
  r_stderr : string;
  r_response_time : Q;
  r_tokens_input : Z;
  r_tokens_output : Z
}.

(** The body shared, text for text, by [call_claude] and [call_codex]: the
    [try] with its two [except] clauses.  The value is what the function
    does at its boundary, a returned dictionary or a raised exception. *)
Definition call_cli (argv : list string) (w : world) (prompt : string)
    (timeout : Z) : py result :=
  let start_time := time_before w in
  match subprocess_run w argv timeout with
  | Return proc =>
      let response_time := (time_after w - start_time)%Q in
      Return (mkResult (returncode proc =? 0) (stdout proc) (stderr proc)
                response_time (split_len prompt) (split_len (stdout proc)))
  | Raise TimeoutExpired =>
      Return (mkResult false "" "timeout" (inject_Z timeout)
                (split_len prompt) 0)
  | Raise (OtherException str_e) =>
      Return (mkResult false "" str_e (time_after w - start_time)%Q 0 0)
  end.

Definition default_timeout : Z := 30.

Definition call_claude (w : world) (prompt : string) (timeout : Z) : py result :=
  call_cli ["claude"; "-p"; prompt]%string w prompt timeout.

Definition call_codex (w : world) (prompt : string) (timeout : Z) : py result :=
  call_cli ["codex"; "exec"; prompt]%string w prompt timeout.

(** The contract of a gateway [call] that runs the command [argv prompt]:
    it returns a dictionary whatever the subprocess does, and the
    dictionary reports each kind of failure. *)
Definition reports_failures (call : world -> string -> Z -> py result)
    (argv : string -> list string) : Prop :=
  forall (w : world) (prompt : string) (timeout : Z),
  exists r : result,
    call w prompt timeout = Return r
    /\ (subprocess_run w (argv prompt) timeout = Raise TimeoutExpired ->
        r_success r = false /\ r_stderr r = "timeout"%string
        /\ r_response_time r = inject_Z timeout)
    /\ (forall proc, subprocess_run w (argv prompt) timeout = Return proc ->
        returncode proc <> 0 ->
        r_success r = false /\ r_stderr r = stderr proc)
    /\ (forall str_e,
        subprocess_run w (argv prompt) timeout = Raise (OtherException str_e) ->
        r_success r = false /\ r_stderr r = str_e).

(** A world in which every command runs out of time. *)
Definition hanging_world : world :=
  {| subprocess_run := fun _ _ => Raise TimeoutExpired;
     time_before := 100%Q; time_after := 101%Q |}.

End Gateway.

(** ** Retrieval engine ([rag_engine.py]) and its caller ([chapter_3.py]) *)

Module Retrieval.

(** One entry of [corpus_metadata]. *)
Record metadata : Type := mkMeta {
  code : string;
  description : string;
  source : string;
  detail_level : option Z
}.

(** One dictionary of the list [find_similar] returns. *)
Record hit : Type := mkHit {
  h_code : string;
  h_description : string;
  h_similarity : Q;
  h_source : string;
  h_detail_level : option Z
}.

(** scikit-learn, used as a library: the fitted [TfidfVectorizer] and the
    dense matrix are opaque values; [fit_transform corpus] stands for
    [TfidfVectorizer(...).fit_transform(corpus).toarray()] with the fitted
    vectorizer, and [similarities v e query] for
    [cosine_similarity(v.transform([query]).toarray(), e)[0]], one score per
    row of [e]. *)
Record sklearn : Type := {
  Vectorizer : Type;
  Embeddings : Type;
  fit_transform : list string -> Vectorizer * Embeddings;
  similarities : Vectorizer -> Embeddings -> string -> list Q
}.

(** A stand-in used in the examples: the matrix is the score table itself
    and every document of a fresh corpus scores 0. *)
Definition table_sklearn : sklearn := {|
  Vectorizer := unit;
  Embeddings := list Q;
  fit_transform := fun corpus => (tt, map (fun _ => 0%Q) corpus);
  similarities := fun _ e _ => e
|}.

(** *** [np.argsort] *)

(** [np.argsort(a)] returns the indices of [a] in ascending order of value.
    Its default introsort finishes every run of at most 16 elements by
    insertion sort, which is what this is; numpy promises no order among
    equal values beyond that. *)
Fixpoint insert_index (a : list Q) (i : nat) (sorted : list nat) : list nat :=
  match sorted with
  | [] => [i]
  | j :: rest =>
      if Qltb (nth i a 0%Q) (nth j a 0%Q) then i :: j :: rest
      else j :: insert_index a i rest
  end.

Definition np_argsort (a : list Q) : list nat :=
  fold_left (fun sorted i => insert_index a i sorted) (seq 0 (length a)) [].

(** Ascending by value and, among equal values, by index: the order a
    stable sort of the indices produces. *)
Definition index_before (a : list Q) (i j : nat) : Prop :=
  (nth i a 0 < nth j a 0)%Q \/ ((nth i a 0 == nth j a 0)%Q /\ (i < j)%nat).

(** What any implementation of [argsort] guarantees. *)
Definition argsort_spec (argsort : list Q -> list nat) : Prop :=
  forall a, Permutation (argsort a) (seq 0 (length a)) /\
            StronglySorted (fun i j => (nth i a 0 <= nth j a 0)%Q) (argsort a).

(** *** The engine *)

(** Cache files.  [os.path.join(d, name)] for a [name] that is not
    absolute. *)
Definition ends_with_slash (d : string) : bool :=
  match String.rev d with
  | String c _ => Ascii.eqb c "/"
  | EmptyString => false
  end.

Definition path_join (d name : string) : string :=
  if String.eqb d "" then name
  else if ends_with_slash d then d ++ name
  else d ++ "/" ++ name.

Definition vectorizer_file (cache_dir suffix : string) : string :=
  path_join cache_dir ("vectorizer" ++ suffix ++ ".pkl").
Definition embeddings_file (cache_dir suffix : string) : string :=
  path_join cache_dir ("embeddings" ++ suffix ++ ".npy").
Definition corpus_file (cache_dir suffix : string) : string :=
  path_join cache_dir ("corpus" ++ suffix ++ ".json").


(** The rows the two [SELECT]s of [_build_corpus] return, in their
    [ORDER BY] order: [(code, description)] from [icd10_codes] and
    [(code, description, detail_level)] from [generated_descriptions]. *)
Record corpus_db : Type := {
  real_rows : list (string * string);
  synthetic_rows : list (string * string * option Z)
}.

Section Engine.
Context (sk : sklearn).

(** What a cache file can hold: a pickled vectorizer, a saved matrix, a JSON
    object with the keys it has, or anything else. *)
Inductive file : Type :=
| PickleFile (v : Vectorizer sk)
| NpyFile (e : Embeddings sk)
| JsonFile (corpus : option (list string)) (metadata : option (list metadata))
| OtherFile.

(** The attributes of a [MedicalCodingRAG]. *)
Record MedicalCodingRAG : Type := mkRAG {
  cache_dir : string;
  corpus_mode : string;
  db : corpus_db;
  vectorizer : option (Vectorizer sk);
  embeddings : option (Embeddings sk);
  corpus : list string;
  corpus_metadata : list metadata
}.

Definition set_vectorizer (self : MedicalCodingRAG) v : MedicalCodingRAG :=
  mkRAG (cache_dir self) (corpus_mode self) (db self) v (embeddings self)
        (corpus self) (corpus_metadata self).
Definition set_embeddings (self : MedicalCodingRAG) e : MedicalCodingRAG :=
  mkRAG (cache_dir self) (corpus_mode self) (db self) (vectorizer self) e
        (corpus self) (corpus_metadata self).
Definition set_corpus (self : MedicalCodingRAG) c : MedicalCodingRAG :=
  mkRAG (cache_dir self) (corpus_mode self) (db self) (vectorizer self)
        (embeddings self) c (corpus_metadata self).
Definition set_corpus_metadata (self : MedicalCodingRAG) m : MedicalCodingRAG :=
  mkRAG (cache_dir self) (corpus_mode self) (db self) (vectorizer self)
        (embeddings self) (corpus self) m.

(** [_load_cache]: the object after the call and the returned flag.  Each
    assignment made before a failing step stays. *)
Definition _load_cache (fs : gmap string file) (self : MedicalCodingRAG)
    (suffix : string) : MedicalCodingRAG * bool :=
  match fs !! vectorizer_file (cache_dir self) suffix,
        fs !! embeddings_file (cache_dir self) suffix,
        fs !! corpus_file (cache_dir self) suffix with
  | Some f0, Some f1, Some f2 =>
      match f0 with
      | PickleFile v =>
          let self := set_vectorizer self (Some v) in
          match f1 with
          | NpyFile e =>
              let self := set_embeddings self (Some e) in
              match f2 with
              | JsonFile (Some c) m =>
                  let self := set_corpus self c in
                  match m with
                  | Some m => (set_corpus_metadata self m, true)
                  | None => (self, false)
                  end
              | _ => (self, false)
              end
          | _ => (self, false)
          end
      | _ => (self, false)
      end
  | _, _, _ => (self, false)
  end.

(** [_save_cache]: three files written. *)
Definition _save_cache (fs : gmap string file) (self : MedicalCodingRAG)
    (suffix : string) : gmap string file :=
  match vectorizer self, embeddings self with
  | Some v, Some e =>
      <[corpus_file (cache_dir self) suffix :=
          JsonFile (Some (corpus self)) (Some (corpus_metadata self))]>
      (<[embeddings_file (cache_dir self) suffix := NpyFile e]>
       (<[vectorizer_file (cache_dir self) suffix := PickleFile v]> fs))
  | _, _ =>
      (* nothing to pickle: [pickle.dump(None)] and [np.save(None)] still
         write files, which no later load accepts *)
      <[corpus_file (cache_dir self) suffix :=
          JsonFile (Some (corpus self)) (Some (corpus_metadata self))]>
      (<[embeddings_file (cache_dir self) suffix := OtherFile]>
       (<[vectorizer_file (cache_dir self) suffix := OtherFile]> fs))
  end.

Definition is_in (s : string) (l : list string) : bool :=
  existsb (String.eqb s) l.

(** [_build_corpus] appends to the two lists. *)
Definition _build_corpus (self : MedicalCodingRAG) : MedicalCodingRAG :=
  let self :=
    if is_in (corpus_mode self) ["real_only"; "both"]%string then
      fold_left (fun self '(code, description) =>
          set_corpus_metadata
            (set_corpus self (corpus self ++ [description]))
            (corpus_metadata self ++ [mkMeta code description "real" None]))
        (real_rows (db self)) self
    else self in
  if is_in (corpus_mode self) ["synthetic_only"; "both"]%string then
    fold_left (fun self '(code, description, detail_level) =>
        set_corpus_metadata
          (set_corpus self (corpus self ++ [description]))
          (corpus_metadata self ++
             [mkMeta code description "synthetic" detail_level]))
      (synthetic_rows (db self)) self
  else self.

Definition _compute_embeddings (self : MedicalCodingRAG) : MedicalCodingRAG :=
  let '(v, e) := fit_transform sk (corpus self) in
  set_embeddings (set_vectorizer self (Some v)) (Some e).

(** [__init__]: the constructed object and the file system it leaves. *)
Definition init (fs : gmap string file) (database : corpus_db)
    (cache_dir corpus_mode : string) : MedicalCodingRAG * gmap string file :=
  let self := mkRAG cache_dir corpus_mode database None None [] [] in
  let cache_suffix := ("_" ++ corpus_mode)%string in
  let '(self, loaded) := _load_cache fs self cache_suffix in
  if loaded then (self, fs)
  else
    let self := _build_corpus self in
    let self := _compute_embeddings self in
    (self, _save_cache fs self cache_suffix).


(** *** Queries *)

(** Truth value of an optional string argument: [None] and [''] are false. *)
Definition truthy (s : option string) : bool :=
  match s with
  | Some s => negb (String.eqb s "")
  | None => false
  end.

(** [exclude_code and metadata['code'] == exclude_code] *)
Definition excluded (exclude_code : option string) (m : metadata) : bool :=
  match exclude_code with
  | Some k => truthy exclude_code && String.eqb (code m) k
  | None => false
  end.

(** [source_filter and metadata['source'] != source_filter] *)
Definition filtered_out (source_filter : option string) (m : metadata) : bool :=
  match source_filter with
  | Some f => truthy source_filter && negb (String.eqb (source m) f)
  | None => false
  end.

Definition make_hit (m : metadata) (similarity : Q) : hit :=
  mkHit (code m) (description m) similarity (source m) (detail_level m).

(** The [for idx in top_indices] loop of [find_similar], with [results] the
    list built so far.  [None] is the [IndexError] of
    [self.corpus_metadata[idx]] for an index past the end. *)
Fixpoint scan (top_k : Z) (exclude_code source_filter : option string)
    (corpus_metadata : list metadata) (sims : list Q)
    (top_indices : list nat) (results : list hit) : option (list hit) :=
  match top_indices with
  | [] => Some results
  | idx :: rest =>
      match corpus_metadata !! idx, sims !! idx with
      | Some m, Some s =>
          if excluded exclude_code m then
            scan top_k exclude_code source_filter corpus_metadata sims rest results
          else if filtered_out source_filter m then
            scan top_k exclude_code source_filter corpus_metadata sims rest results
          else
            let results := results ++ [make_hit m s] in
            if Z.of_nat (length results) >=? top_k then Some results
            else scan top_k exclude_code source_filter corpus_metadata sims rest results
      | _, _ => None
      end
  end.

(** The hits of the entries that pass both tests, in the order of the given
    indices: what the loop picks from, front to back. *)
Definition candidates (exclude_code source_filter : option string)
    (corpus_metadata : list metadata) (sims : list Q) (indices : list nat)
  : list hit :=
  flat_map (fun idx =>
      match corpus_metadata !! idx, sims !! idx with
      | Some m, Some s =>
          if excluded exclude_code m || filtered_out source_filter m then []
          else [make_hit m s]
      | _, _ => []
      end) indices.

(** The score vector of a query, when the engine has its vectorizer and
    matrix. *)
Definition scores (self : MedicalCodingRAG) (query : string) : option (list Q) :=
  match vectorizer self, embeddings self with
  | Some v, Some e => Some (similarities sk v e query)
  | _, _ => None
  end.

(** [find_similar] over a given [argsort]; [None] also stands for the
    [AttributeError] on an engine whose vectorizer was never set. *)
Definition find_similar_with (argsort : list Q -> list nat)
    (self : MedicalCodingRAG) (query : string) (top_k : Z)
    (exclude_code source_filter : option string) : option (list hit) :=
  match vectorizer self, embeddings self with
  | Some v, Some e =>
      let sims := similarities sk v e query in
      let top_indices := rev (argsort sims) in
      scan top_k exclude_code source_filter (corpus_metadata self) sims top_indices []
  | _, _ => None
  end.

Definition find_similar := find_similar_with np_argsort.

Definition default_top_k : Z := 5.

(** Python's [l[:k]]. *)
Definition slice_to {A} (l : list A) (k : Z) : list A :=
  if 0 <=? k then firstn (Z.to_nat k) l
  else firstn (length l - Z.to_nat (- k)) l.

(** [find_similar_with_rag] of [chapter_3.py]. *)
Definition find_similar_with_rag (rag_engine : MedicalCodingRAG)
    (query_description : string) (top_k : Z) (exclude_code : option string)
  : option (list hit) :=
  match find_similar rag_engine query_description (top_k * 3) exclude_code None with
  | None => None
  | Some candidates =>
      let real_examples :=
        slice_to (List.filter (fun c => String.eqb (h_source c) "real") candidates) top_k in
      let synthetic_examples :=
        List.filter (fun c => String.eqb (h_source c) "synthetic") candidates in
      let results :=
        if Z.of_nat (length real_examples) <? top_k then
          real_examples ++
            slice_to synthetic_examples (top_k - Z.of_nat (length real_examples))
        else real_examples in
      Some (slice_to results top_k)
  end.

End Engine.

(** Engines for the examples, over the score-table stand-in: the given
    metadata, and the given score for each entry whatever the query. *)
Definition example_engine (corpus_metadata : list metadata) (table : list Q)
  : MedicalCodingRAG table_sklearn :=
  mkRAG table_sklearn ".rag_cache" "both"
    {| real_rows := []; synthetic_rows := [] |}
    (Some tt) (Some table) (map description corpus_metadata) corpus_metadata.

(** Two derived entries that outrank two authoritative ones. *)
Definition mixed_corpus : list metadata :=
  [mkMeta "A00.0" "profuse watery stool" "synthetic" (Some 3);
   mkMeta "A00.1" "rice-water diarrhea" "synthetic" (Some 5);
   mkMeta "A00" "Cholera" "real" None;
   mkMeta "A09" "Infectious gastroenteritis" "real" None].
Definition mixed_scores : list Q := [9 # 10; 8 # 10; 7 # 10; 6 # 10]%Q.



End Retrieval.

(** ** The store ([db_manager.py]) and the stages that write to it *)

Module Store.

(** A table with an [INTEGER PRIMARY KEY AUTOINCREMENT] column: its rows in
    rowid order and the largest rowid ever handed out, which SQLite keeps in
    [sqlite_sequence]. *)
Record table (row : Type) : Type := mkTable {
  rows : list row;
  seq : Z
}.
Arguments mkTable {row} rows seq.
Arguments rows {row} t.
Arguments seq {row} t.

Definition empty_table {row} : table row := mkTable [] 0.

(** The rowid an [INSERT] gets: one more than the largest of
    [sqlite_sequence.seq] and the rowids present. *)
Definition next_rowid {row} (rowid : row -> Z) (t : table row) : Z :=
  fold_left Z.max (map rowid (rows t)) (seq t) + 1.

(** [icd10_codes]. *)
Record icd10_code : Type := mkCode {
  c_id : Z;
  c_code : string;
  c_description : string;
  c_category : option string
}.

(** [processing_status]. *)
Record processing_status_row : Type := mkStatus {
  ps_code_id : Z;
  ps_processed : bool
}.

(** [model_predictions], declared with [UNIQUE(code_id, model_name)].  The
    [predicted_codes] column holds the JSON text of the list. *)
Record model_prediction : Type := mkPrediction {
  mp_id : Z;
  mp_code_id : Z;
  mp_model_name : string;
  mp_model_version : string;
  mp_generated_description : string;
  mp_predicted_codes : list string;
  mp_confidence : Q;
  mp_processing_time : Q;
  mp_input_tokens : Z;
  mp_output_tokens : Z;
  mp_batch_id : option string;
  mp_batch_size : Z
}.

(** [rag_<corpus_mode>_predictions], declared in [generate_book_report.py]
    with two plain indexes and no [UNIQUE] constraint. *)
Record rag_prediction : Type := mkRagPrediction {
  rp_id : Z;
  rp_generated_desc_id : Z;
  rp_model_name : string;
  rp_predicted_codes : list string;
  rp_num_variants_used : Z;
  rp_variant_codes : list string;
  rp_confidence : Q;
  rp_input_tokens : Z;
  rp_output_tokens : Z;
  rp_processing_time : Q
}.

Record MedicalCodingDB : Type := mkDB {
  icd10_codes : list icd10_code;
  processing_status : list processing_status_row;
  model_predictions : table model_prediction
}.

(** The rows [INSERT OR REPLACE] deletes from [model_predictions]: those
    that collide with the new row on the unique pair. *)
Definition same_key (code_id : Z) (model : string) (r : model_prediction) : bool :=
  (mp_code_id r =? code_id) && String.eqb (mp_model_name r) model.

(** [save_prediction_with_tokens]. *)
Definition save_prediction_with_tokens (self : MedicalCodingDB)
    (code_id : Z) (model model_version description : string)
    (predicted_codes : list string) (confidence processing_time : Q)
    (input_tokens output_tokens : Z) (batch_id : option string)
    (batch_size : Z) : MedicalCodingDB :=
  let t := model_predictions self in
  let id := next_rowid mp_id t in
  let kept := List.filter (fun r => negb (same_key code_id model r)) (rows t) in
  mkDB (icd10_codes self) (processing_status self)
    (mkTable
       (kept ++ [mkPrediction id code_id model model_version description
                   predicted_codes confidence processing_time input_tokens
                   output_tokens batch_id batch_size])
       id).

(** SQL's [LIMIT n]: a negative [n] means no limit. *)
Definition sql_limit {A} (limit : Z) (l : list A) : list A :=
  if limit <? 0 then l else firstn (Z.to_nat limit) l.

(** [LEFT JOIN model_predictions mp ON c.id = mp.code_id AND
    mp.model_name = ? WHERE mp.id IS NULL]: the codes with no joined row. *)
Definition has_prediction (self : MedicalCodingDB) (model : string)
    (c : icd10_code) : bool :=
  existsb (same_key (c_id c) model) (rows (model_predictions self)).

(** [get_unprocessed_codes]; rows come in the scan order of [icd10_codes].
    [if model:] is false for [None] and for the empty string. *)
Definition get_unprocessed_codes (self : MedicalCodingDB) (limit : Z)
    (model : option string) : list icd10_code :=
  match model with
  | Some m =>
      if negb (String.eqb m "") then
        sql_limit limit
          (List.filter (fun c => negb (has_prediction self m c)) (icd10_codes self))
      else
        sql_limit limit
          (flat_map (fun c =>
               map (fun _ => c)
                 (List.filter (fun ps => (ps_code_id ps =? c_id c) && negb (ps_processed ps))
                    (processing_status self)))
             (icd10_codes self))
  | None =>
      sql_limit limit
        (flat_map (fun c =>
             map (fun _ => c)
               (List.filter (fun ps => (ps_code_id ps =? c_id c) && negb (ps_processed ps))
                  (processing_status self)))
           (icd10_codes self))
  end.

Definition default_limit : Z := 100.

(** Every code the anti-join keeps for a model, before [LIMIT]. *)
Definition pending (self : MedicalCodingDB) (model : string) : list icd10_code :=
  List.filter (fun c => negb (has_prediction self model c)) (icd10_codes self).

(** Whether a code is among the given persisted code ids. *)
Definition persisted_in (ids : list Z) (c : icd10_code) : bool :=
  existsb (Z.eqb (c_id c)) ids.

(** The arguments of one [save_prediction_with_tokens] call besides the
    model name. *)
Record prediction_args : Type := mkArgs {
  a_code_id : Z;
  a_model_version : string;
  a_description : string;
  a_predicted_codes : list string;
  a_confidence : Q;
  a_processing_time : Q;
  a_input_tokens : Z;
  a_output_tokens : Z;
  a_batch_id : option string;
  a_batch_size : Z
}.

Definition save (model : string) (self : MedicalCodingDB) (a : prediction_args)
  : MedicalCodingDB :=
  save_prediction_with_tokens self (a_code_id a) model (a_model_version a)
    (a_description a) (a_predicted_codes a) (a_confidence a)
    (a_processing_time a) (a_input_tokens a) (a_output_tokens a)
    (a_batch_id a) (a_batch_size a).

(** A batch loop persisting one result per unit, as [run_experiment] and
    [PluginAdapter._save_results] do. *)
Definition save_all (model : string) (self : MedicalCodingDB)
    (batch : list prediction_args) : MedicalCodingDB :=
  fold_left (save model) batch self.

(** Rows of [model_predictions] for one unique pair. *)
Definition predictions_for (self : MedicalCodingDB) (code_id : Z)
    (model : string) : list model_prediction :=
  List.filter (same_key code_id model) (rows (model_predictions self)).

(** The uniqueness the schema declares. *)
Definition unique_predictions (self : MedicalCodingDB) : Prop :=
  NoDup (map (fun r => (mp_code_id r, mp_model_name r))
             (rows (model_predictions self))).

(** One entry of the [results] list of [run_rag_experiment]. *)
Record rag_result : Type := mkRagResult {
  desc_id : Z;
  actual_code : string;
  predicted_codes : list string;
  similar_variants : list Retrieval.hit;
  confidence : Q;
  input_tokens : Z;
  output_tokens : Z;
  processing_time : Q
}.

(** The plain [INSERT INTO rag_<corpus_mode>_predictions] of
    [run_rag_experiment], for one result. *)
Definition insert_rag_prediction (model_name : string)
    (t : table rag_prediction) (result : rag_result) : table rag_prediction :=
  let id := next_rowid rp_id t in
  mkTable
    (rows t ++
       [mkRagPrediction id (desc_id result) model_name (predicted_codes result)
          (Z.of_nat (length (similar_variants result)))
          (map Retrieval.h_code (similar_variants result))
          (confidence result) (input_tokens result) (output_tokens result)
          (processing_time result)])
    id.

(** The storing loop of [run_rag_experiment]. *)
Definition store_rag_results (model_name : string) (t : table rag_prediction)
    (results : list rag_result) : table rag_prediction :=
  fold_left (insert_rag_prediction model_name) results t.

Definition rag_predictions_for (t : table rag_prediction)
    (generated_desc_id : Z) (model_name : string) : list rag_prediction :=
  List.filter (fun r => (rp_generated_desc_id r =? generated_desc_id)
                        && String.eqb (rp_model_name r) model_name) (rows t).

(** *** The reverse-prediction stage ([chapter_3.py])

    The [CREATE TABLE] statements of [generated_descriptions] and
    [reverse_predictions] are not among the sources: the columns are those
    the queries of [run_reverse_predictions] name, and whether
    [reverse_predictions] declares (generated_desc_id, predictor_model)
    unique, which decides what [INSERT OR REPLACE] removes, is the
    parameter [unique_pair]. *)
Record generated_description : Type := mkDescription {
  gd_id : Z;
  gd_code_id : Z;
  gd_detail_level : Z;
  gd_description : string
}.

Record reverse_prediction : Type := mkReverse {
  rv_generated_desc_id : Z;
  rv_predictor_model : string;
  rv_predicted_codes : list string;
  rv_confidence : Q;
  rv_processing_time : Q
}.

(** The three tables of the database the stage reads and writes. *)
Record reverse_tables : Type := mkReverseTables {
  rt_codes : list icd10_code;
  rt_descriptions : list generated_description;
  rt_predictions : list reverse_prediction
}.

Definition reverse_key (desc_id : Z) (model : string) (r : reverse_prediction) : bool :=
  (rv_generated_desc_id r =? desc_id) && String.eqb (rv_predictor_model r) model.

(** [EXISTS (SELECT 1 FROM reverse_predictions rp WHERE
    rp.generated_desc_id = gd.id AND rp.predictor_model = ?)] *)
Definition has_reverse_prediction (t : reverse_tables) (model : string)
    (gd : generated_description) : bool :=
  existsb (reverse_key (gd_id gd) model) (rt_predictions t).

(** A row [(gd.id, gd.code_id, gd.detail_level, gd.description, ic.code)]. *)
Definition description_row : Type := Z * Z * Z * string * string.

Definition row_desc_id (row : description_row) : Z :=
  let '(desc_id, _, _, _, _) := row in desc_id.

(** The join and the [NOT EXISTS] test, in the scan order of
    [generated_descriptions]. *)
Definition pending_descriptions (t : reverse_tables) (model : string)
  : list description_row :=
  flat_map (fun gd =>
      if has_reverse_prediction t model gd then []
      else map (fun ic => (gd_id gd, gd_code_id gd, gd_detail_level gd,
                           gd_description gd, c_code ic))
               (List.filter (fun ic => c_id ic =? gd_code_id gd) (rt_codes t)))
    (rt_descriptions t).

(** The [SELECT ... LIMIT ?] of [run_reverse_predictions]. *)
Definition select_descriptions (t : reverse_tables) (model : string)
    (max_predictions : Z) : list description_row :=
  sql_limit max_predictions (pending_descriptions t model).

(** The [INSERT OR REPLACE INTO reverse_predictions] of the loop body. *)
Definition save_reverse_prediction (unique_pair : bool) (model : string)
    (t : reverse_tables) (r : reverse_prediction) : reverse_tables :=
  let kept :=
    if unique_pair then
      List.filter (fun r' => negb (reverse_key (rv_generated_desc_id r) model r'))
                  (rt_predictions t)
    else rt_predictions t in
  mkReverseTables (rt_codes t) (rt_descriptions t)
    (kept ++ [mkReverse (rv_generated_desc_id r) model (rv_predicted_codes r)
                (rv_confidence r) (rv_processing_time r)]).

Definition save_reverse_predictions (unique_pair : bool) (model : string)
    (t : reverse_tables) (batch : list reverse_prediction) : reverse_tables :=
  fold_left (save_reverse_prediction unique_pair model) batch t.

(** A small store for the examples: four codes, no prediction yet. *)
Definition example_catalog : list icd10_code :=
  [mkCode 1 "A00" "Cholera" None; mkCode 2 "A01" "Typhoid fever" None;
   mkCode 3 "A02" "Salmonella infection" None; mkCode 4 "A03" "Shigellosis" None].

Definition example_db : MedicalCodingDB := mkDB example_catalog [] empty_table.

Definition example_args (code_id : Z) : prediction_args :=
  mkArgs code_id "1.0.0" "watery diarrhea" ["A00"%string] 1%Q (1 # 2)%Q 9 1 None 1.

Definition example_rag_result : rag_result :=
  mkRagResult 7 "A00" ["A00"%string] [] 1%Q 40 1 (3 # 2)%Q.

End Store.

(** ** The run lock ([dataset_generation.py]) *)

Module Lock.

Definition LOCK_FILE : string := ".dataset_generation.lock".

(** What the process can touch: the lock file, if present with its text,
    and the store, seen as the log of writes made to it. *)
Record system (write : Type) : Type := mkSystem {
  lock_file : option string;
  store_writes : list write
}.
Arguments mkSystem {write} lock_file store_writes.
Arguments lock_file {write} s.
Arguments store_writes {write} s.

Section Main.
Context {write : Type}.

(** The text written to the lock: the process id and the time, one per
    line, both given as the strings [os.getpid()] and
    [datetime.now().isoformat()] format to. *)
Definition lock_text (pid now : string) : string :=
  (pid ++ String "010" (now ++ String "010" ""))%string.

(** [create_lock_file]: the system after the call and the returned flag. *)
Definition create_lock_file (pid now : string) (s : system write)
  : system write * bool :=
  match lock_file s with
  | Some _ => (s, false)
  | None => (mkSystem (Some (lock_text pid now)) (store_writes s), true)
  end.

(** [remove_lock_file]. *)
Definition remove_lock_file (s : system write) : system write :=
  match lock_file s with
  | Some _ => mkSystem None (store_writes s)
  | None => s
  end.

(** [is_generation_running]. *)
Definition is_generation_running (s : system write) : bool :=
  match lock_file s with Some _ => true | None => false end.

(** How the process ends: [exit(1)], or the end of the script. *)
Inductive exit_status : Type :=
| Exit (status : Z)
| Finished.

(** The [__main__] block.  [start_api_server] with [--api-only] and
    [continuous_generation_loop] otherwise are the callees, given as what
    they do to the system; the monitoring thread only reads. *)
Definition main (start_api_server continuous_generation_loop : system write -> system write)
    (api_only : bool) (pid now : string) (s : system write)
  : system write * exit_status :=
  if api_only then (start_api_server s, Finished)
  else
    let '(s, created) := create_lock_file pid now s in
    if negb created then (s, Exit 1)
    else
      let s := continuous_generation_loop s in
      (* finally: *)
      (remove_lock_file s, Finished).

End Main.

End Lock.

(** ** The batch-size time series ([plugin_adapter.py]) *)

Module TimeSeries.

(** The values of a trace that differ from the value before them, [prev]
    being the value before the first. *)
Fixpoint changes (prev : Z) (trace : list Z) : list Z :=
  match trace with
  | [] => []
  | x :: trace' => if x =? prev then changes x trace' else x :: changes x trace'
  end.

End TimeSeries.

(** ** Float division of counts ([chapter_2.py], [plugin_adapter.py]) *)

Module Float.

(** The integer nearest to [num / den], for [den > 0], a tie going to the
    even neighbour. *)
Definition round_half_even (num den : Z) : Z :=
  let q := num / den in
  let r := num mod den in
  if 2 * r <? den then q
  else if den <? 2 * r then q + 1
  else if Z.even q then q else q + 1.

(** Python's [a / b] on two ints, [a >= 0] and [b > 0]: the binary64 number
    nearest to the quotient (ties to even), as the rational it is.  The
    exponent [e] is chosen so that the quotient scaled by [2^-e] lies in
    [[2^52, 2^53)], where it is rounded to an integer; quotients below the
    normal range, which counts of rows do not reach, are not treated. *)
Definition true_divide (a b : Z) : Q :=
  if a =? 0 then 0%Q
  else
    let num e := a * 2 ^ Z.max 0 (- e) in
    let den e := b * 2 ^ Z.max 0 e in
    let e0 := Z.log2 a - Z.log2 b - 53 in
    let e := if num e0 <? 2 ^ 53 * den e0 then e0 else e0 + 1 in
    let m := round_half_even (num e) (den e) in
    Qred (if 0 <=? e then inject_Z (m * 2 ^ e)
          else Qmake m (Z.to_pos (2 ^ (- e)))).

(** [items_succeeded / items_attempted if items_attempted > 0 else 0], the
    rate both batch loops hand to the controller. *)
Definition success_rate (items_succeeded items_attempted : Z) : Q :=
  if items_attempted >? 0 then true_divide items_succeeded items_attempted
  else 0%Q.

(** Whether the three tests of the controller, made on the float rate of
    [s] successes out of [n], come out as the same tests made on the exact
    fraction [s / n] against 1/2, 7/10 and 9/10. *)
Definition tests_exact (s n : Z) : bool :=
  Bool.eqb (Qltb (success_rate s n) Controller.lit_0_5) (2 * s <? n)
  && Bool.eqb (Qltb (success_rate s n) Controller.lit_0_7) (10 * s <? 7 * n)
  && Bool.eqb (Qgeb (success_rate s n) Controller.lit_0_9) (9 * n <=? 10 * s).

(** The integers from [lo], [len] of them. *)
Definition zrange (lo : Z) (len : nat) : list Z :=
  map (fun i => lo + Z.of_nat i) (seq 0 len).

Definition tests_exact_upto (size : nat) : bool :=
  forallb (fun n => forallb (fun s => tests_exact s n) (zrange 0 (S (Z.to_nat n))))
          (zrange 1 size).

End Float.

(** ** Loading the catalog and paging through it ([db_manager.py],
    [plugin_adapter.py]) *)

Module Catalog.
Import Store.

(** A row of the CSV file as [csv.DictReader] yields it, with the columns
    [import_catalog] reads: [code] and [description] ([None] when the line
    is too short to have the cell), and the value of
    [row.get('category', '')].  The [country] and [source_file] columns it
    also writes are read by no query here. *)
Record csv_row : Type := mkCsvRow {
  csv_code : option string;
  csv_description : option string;
  csv_category : option string
}.

(** [icd10_codes] with its rowid counter, and [processing_status]. *)
Record catalog : Type := mkCatalog {
  cat_codes : table icd10_code;
  cat_status : list processing_status_row
}.

Definition empty_catalog : catalog := mkCatalog empty_table [].

(** Whether the [UNIQUE] constraint on [code] rejects a new row. *)
Definition code_exists (code : string) (t : table icd10_code) : bool :=
  existsb (fun c => String.eqb (c_code c) code) (rows t).

(** One turn of the loop of [import_catalog], on the catalog and the two
    counters [imported] and [skipped].  A [NULL] in a [NOT NULL] column and
    a code already present both raise [sqlite3.IntegrityError], which the
    loop counts as a skip. *)
Definition import_row (state : catalog * Z * Z) (row : csv_row) : catalog * Z * Z :=
  let '(cat, imported, skipped) := state in
  match csv_code row, csv_description row with
  | Some code, Some description =>
      if code_exists code (cat_codes cat) then (cat, imported, skipped + 1)
      else
        let code_id := next_rowid c_id (cat_codes cat) in
        (mkCatalog
           (mkTable (rows (cat_codes cat)
                       ++ [mkCode code_id code description (csv_category row)])
                    code_id)
           (cat_status cat ++ [mkStatus code_id false]),
         imported + 1, skipped)
  | _, _ => (cat, imported, skipped + 1)
  end.

(** [import_catalog]: the catalog after the call and the returned pair. *)
Definition import_catalog (cat : catalog) (rows : list csv_row) : catalog * Z * Z :=
  fold_left import_row rows (cat, 0, 0).

(** The database a catalog is part of. *)
Definition db_of (cat : catalog) (predictions : table model_prediction)
  : MedicalCodingDB :=
  mkDB (rows (cat_codes cat)) (cat_status cat) predictions.

(** What the schema and [import_catalog] keep true of a catalog: ids and
    codes are unique, and there is one unprocessed status row per code, in
    the same order. *)
Definition well_formed (cat : catalog) : Prop :=
  NoDup (map c_id (rows (cat_codes cat)))
  /\ NoDup (map c_code (rows (cat_codes cat)))
  /\ cat_status cat = map (fun c => mkStatus (c_id c) false) (rows (cat_codes cat)).

(** *** Paging by offset *)

(** SQL's [OFFSET n]: a negative [n] skips nothing. *)
Definition sql_offset {A} (offset : Z) (l : list A) : list A :=
  skipn (Z.to_nat offset) l.

(** [_get_processed_count]: [COUNT(DISTINCT code_id)] over the predictions
    of one model. *)
Definition _get_processed_count (self : MedicalCodingDB) (name : string) : Z :=
  Z.of_nat (length (remove_dups
    (map mp_code_id
       (List.filter (fun r => String.eqb (mp_model_name r) name)
                    (rows (model_predictions self)))))).

(** [get_next_batch]: the [(code, description)] items of the page and the
    offset after it. *)
Definition get_next_batch (self : MedicalCodingDB) (current_offset batch_size : Z)
  : list (string * string) * Z :=
  let items :=
    map (fun c => (c_code c, c_description c))
        (sql_limit batch_size (sql_offset current_offset (icd10_codes self))) in
  (items, current_offset + Z.of_nat (length items)).

(** *** Model configuration *)

(** [model_config], [UNIQUE] on [model_name]. *)
Record model_config : Type := mkConfig {
  mc_model_name : string;
  mc_model_version : string;
  mc_optimal_batch_size : Z;
  mc_max_batch_size : Z;
  mc_min_batch_size : Z;
  mc_cost_per_1k_input_tokens : Q;
  mc_cost_per_1k_output_tokens : Q;
  mc_max_tokens_per_request : Z;
  mc_rate_limit_per_minute : Z
}.

(** The three rows [init_database] inserts, with the column defaults 10, 50
    and 1; the costs are the binary64 values of the decimals written. *)
Definition default_model_config : list model_config :=
  [mkConfig "claude" "claude-3-opus-20240229" 10 50 1
     (1080863910568919 # 72057594037927936) (5404319552844595 # 72057594037927936)
     200000 10;
   mkConfig "codex" "gpt-4-turbo" 10 50 1
     (5764607523034235 # 576460752303423488) (1080863910568919 # 36028797018963968)
     128000 30;
   mkConfig "gemini" "gemini-1.5-pro" 10 50 1
     (8070450532247929 # 2305843009213693952) (6052837899185947 # 576460752303423488)
     1000000 60].

(** [get_optimal_batch_size]: the first matching row, or 10. *)
Definition get_optimal_batch_size (config : list model_config) (model : string) : Z :=
  match List.filter (fun r => String.eqb (mc_model_name r) model) config with
  | r :: _ => mc_optimal_batch_size r
  | [] => 10
  end.

(** [update_optimal_batch_size]: an [UPDATE ... WHERE model_name = ?]. *)
Definition update_optimal_batch_size (config : list model_config)
    (model : string) (new_size : Z) : list model_config :=
  map (fun r =>
         if String.eqb (mc_model_name r) model then
           mkConfig (mc_model_name r) (mc_model_version r) new_size
             (mc_max_batch_size r) (mc_min_batch_size r)
             (mc_cost_per_1k_input_tokens r) (mc_cost_per_1k_output_tokens r)
             (mc_max_tokens_per_request r) (mc_rate_limit_per_minute r)
         else r)
      config.

(** Whether a model has a configuration row. *)
Definition configured (config : list model_config) (model : string) : bool :=
  existsb (fun r => String.eqb (mc_model_name r) model) config.

(** Rows to import in the examples: a new code, a code given twice, and a
    line without a description. *)
Definition example_rows : list csv_row :=
  [mkCsvRow (Some "A00"%string) (Some "Cholera"%string) (Some "A"%string);
   mkCsvRow (Some "A01"%string) (Some "Typhoid fever"%string) (Some ""%string);
   mkCsvRow (Some "A00"%string) (Some "Cholera, again"%string) None;
   mkCsvRow (Some "A02"%string) None None].

End Catalog.

(** * Properties *)

(** ** The controller *)

Lemma Qltb_spec (a b : Q) : reflect (a < b)%Q (Qltb a b).
Proof.
  unfold Qltb. destruct (Qlt_le_dec a b) as [H|H]; constructor; [exact H|].
  intro H'. exact (Qlt_not_le _ _ H' H).
Qed.

Lemma Qgeb_spec (a b : Q) : reflect (b <= a)%Q (Qgeb a b).
Proof.
  unfold Qgeb. destruct (Qlt_le_dec a b) as [H|H]; constructor; [|exact H].
  intro H'. exact (Qlt_not_le _ _ H H').
Qed.

(** Splits on the branch of the [if]/[elif] chain a rate selects. *)
Ltac rate_cases r :=
  destruct (Qltb_spec r Controller.lit_0_5) as [?H5|?H5];
  [| destruct (Qltb_spec r Controller.lit_0_7) as [?H7|?H7];
     [| destruct (Qgeb_spec r Controller.lit_0_9) as [?H9|?H9] ] ].

Section ControllerFacts.
Import Controller.

Lemma lits_ordered : (lit_0_5 < lit_0_7)%Q /\ (lit_0_7 < lit_0_9)%Q.
Proof. split; reflexivity. Qed.

(** One call keeps the size inside [1, max_batch_size], whatever the
    counters hold, and never touches the ceiling. *)
Lemma adjust_state_bounds (self : AdaptiveBatchManager) (r : Q) :
  1 <= current_batch_size self <= max_batch_size self ->
  1 <= current_batch_size (adjust_state self r) <= max_batch_size self
  /\ max_batch_size (adjust_state self r) = max_batch_size self.
Proof.
  intros Hb. unfold adjust_state.
  rate_cases r; cbn.
  - assert (current_batch_size self / 2 <= current_batch_size self)
      by (apply Z.div_le_upper_bound; lia). lia.
  - destruct (1 <=? consecutive_failures self + 1); cbn; lia.
  - destruct (3 <=? consecutive_successes self + 1); cbn; lia.
  - lia.
Qed.

Lemma adjust_all_bounds (rates : list Q) : forall self : AdaptiveBatchManager,
  1 <= current_batch_size self <= max_batch_size self ->
  Forall (fun size => 1 <= size <= max_batch_size self) (snd (adjust_all self rates))
  /\ 1 <= get_size (fst (adjust_all self rates)) <= max_batch_size self.
Proof.
  induction rates as [|r rates IH]; intros self Hb; cbn.
  - split; [constructor | exact Hb].
  - destruct (adjust_state_bounds self r Hb) as [Hb1 Hmax].
    specialize (IH (adjust_state self r)). rewrite Hmax in IH.
    specialize (IH Hb1).
    destruct (adjust_all (adjust_state self r) rates) as [self2 sizes] eqn:E.
    cbn in *. destruct IH as [IH1 IH2]. split; [|exact IH2].
    constructor; [exact Hb1 | exact IH1].
Qed.

(** The adapter's copy steps exactly as the batch manager does. *)
Lemma adapter_simulates (a : PluginAdapter.adapter) (r : Q) :
  PluginAdapter.manager_of (PluginAdapter._adjust_batch_size a r) = adjust_state (PluginAdapter.manager_of a) r.
Proof.
  unfold PluginAdapter._adjust_batch_size, adjust_state, PluginAdapter.manager_of. cbn.
  rate_cases r; cbn; try reflexivity.
  - destruct (1 <=? PluginAdapter.consecutive_failures a + 1); reflexivity.
  - destruct (3 <=? PluginAdapter.consecutive_successes a + 1); reflexivity.
Qed.

Lemma adapter_bounds (rates : list Q) : forall a : PluginAdapter.adapter,
  1 <= PluginAdapter.current_batch_size a <= PluginAdapter.max_batch_size a ->
  1 <= PluginAdapter.get_adaptive_batch_size (PluginAdapter.adjust_all a rates)
    <= PluginAdapter.max_batch_size a.
Proof.
  induction rates as [|r rates IH]; intros a Hb; cbn; [exact Hb|].
  pose proof (adjust_state_bounds (PluginAdapter.manager_of a) r Hb) as [Hb1 Hmax].
  rewrite <- adapter_simulates in Hb1, Hmax. cbn in Hb1, Hmax.
  unfold PluginAdapter.adjust_all in IH.
  rewrite <- Hmax. apply IH. rewrite Hmax. exact Hb1.
Qed.

End ControllerFacts.

(** C1.  Whatever sequence of success rates is fed to [adjust], starting
    from a size between 1 and the ceiling, every value [adjust] returns and
    the size [get_size] reads afterwards lie between 1 and the ceiling.  The
    same holds for every prefix, since the list of returned values covers
    them, and for the copy of the controller inside [PluginAdapter], which
    starts at size 1 with ceiling 20. *)
Theorem batch_size_stays_in_range
    (initial_batch_size max_batch_size : Z) (rates : list Q) :
  1 <= initial_batch_size <= max_batch_size ->
  let run := Controller.adjust_all (Controller.init initial_batch_size max_batch_size) rates in
  Forall (fun size => 1 <= size <= max_batch_size) (snd run)
  /\ 1 <= Controller.get_size (fst run) <= max_batch_size
  /\ 1 <= PluginAdapter.get_adaptive_batch_size
            (PluginAdapter.adjust_all PluginAdapter.init rates) <= 20.
Proof.
  intros Hb run.
  destruct (adjust_all_bounds rates (Controller.init initial_batch_size max_batch_size) Hb)
    as [H1 H2].
  repeat split; try exact H1; try apply H2.
  - apply (adapter_bounds rates PluginAdapter.init). cbn. lia.
  - apply (adapter_bounds rates PluginAdapter.init). cbn. lia.
Qed.

Lemma batch_size_stays_in_range_witness :
  1 <= 10 <= 20 /\
  Forall (fun size => 1 <= size <= 20)
    (snd (Controller.adjust_all (Controller.init 10 20)
            [Controller.lit_0_3; Controller.lit_0_95; Controller.lit_0_6])).
Proof.
  split; [lia|].
  apply (batch_size_stays_in_range 10 20
           [Controller.lit_0_3; Controller.lit_0_95; Controller.lit_0_6]).
  lia.
Defined.

(** A rate of at least 0.9 falls through the first two tests of the chain
    and is taken by the third. *)
Lemma rate_ge_0_9 (x : Q) :
  (Controller.lit_0_9 <= x)%Q ->
  Qltb x Controller.lit_0_5 = false /\ Qltb x Controller.lit_0_7 = false
  /\ Qgeb x Controller.lit_0_9 = true.
Proof.
  pose proof lits_ordered as [L57 L79].
  intros Hx. repeat split.
  - destruct (Qltb_spec x Controller.lit_0_5) as [H|]; [exfalso|reflexivity].
    apply (Qlt_irrefl x). eapply Qlt_le_trans; [exact H|].
    eapply Qle_trans; [|exact Hx]. apply Qlt_le_weak.
    eapply Qlt_trans; eassumption.
  - destruct (Qltb_spec x Controller.lit_0_7) as [H|]; [exfalso|reflexivity].
    apply (Qlt_irrefl x). eapply Qlt_le_trans; [exact H|].
    eapply Qle_trans; [|exact Hx]. apply Qlt_le_weak. exact L79.
  - destruct (Qgeb_spec x Controller.lit_0_9) as [|H]; [reflexivity|].
    exfalso. exact (H Hx).
Qed.

Lemma adjust_state_ge_0_9 (self : Controller.AdaptiveBatchManager) (r : Q) :
  (Controller.lit_0_9 <= r)%Q ->
  Controller.adjust_state self r =
    if 3 <=? Controller.consecutive_successes self + 1 then
      Controller.mkManager
        (Z.min (Controller.max_batch_size self) (Controller.current_batch_size self + 1))
        (Controller.max_batch_size self) 0 0
    else
      Controller.mkManager (Controller.current_batch_size self)
        (Controller.max_batch_size self) (Controller.consecutive_successes self + 1) 0.
Proof.
  intros Hr. unfold Controller.adjust_state.
  destruct (rate_ge_0_9 r Hr) as (-> & -> & ->). reflexivity.
Qed.

(** The counters a manager can reach from its constructor: the failure
    counter is always back at 0 after a call, and the success counter counts
    the rates of at least 0.9 seen in a row, below 3. *)
Lemma counters_invariant_step (self : Controller.AdaptiveBatchManager) (r : Q) :
  Controller.consecutive_failures self = 0 ->
  0 <= Controller.consecutive_successes self < 3 ->
  Controller.consecutive_failures (Controller.adjust_state self r) = 0
  /\ 0 <= Controller.consecutive_successes (Controller.adjust_state self r) < 3.
Proof.
  intros Hf Hs. unfold Controller.adjust_state; rate_cases r; cbn.
  - lia.
  - destruct (Z.leb_spec 1 (Controller.consecutive_failures self + 1)); cbn; lia.
  - destruct (Z.leb_spec 3 (Controller.consecutive_successes self + 1)); cbn; lia.
  - lia.
Qed.

Lemma counters_invariant (rates : list Q) : forall self : Controller.AdaptiveBatchManager,
  Controller.consecutive_failures self = 0 ->
  0 <= Controller.consecutive_successes self < 3 ->
  Controller.consecutive_failures (fst (Controller.adjust_all self rates)) = 0
  /\ 0 <= Controller.consecutive_successes (fst (Controller.adjust_all self rates)) < 3.
Proof.
  induction rates as [|r rates IH]; intros self Hf Hs; cbn; [auto|].
  destruct (counters_invariant_step self r Hf Hs) as [Hf1 Hs1].
  specialize (IH (Controller.adjust_state self r) Hf1 Hs1).
  destruct (Controller.adjust_all (Controller.adjust_state self r) rates) as [self2 sizes].
  exact IH.
Qed.

(** C2.  What one call does, by the band the rate falls in ([0.5], [0.7],
    [0.9] being the float literals of the source): below 0.5 the size is
    halved with floor 1 and both counters cleared; from 0.5 up to 0.7 the
    size drops by 2 with floor 1 at once (the failure counter, never
    negative, reaches its threshold 1 on every such call); from 0.9 up the
    success counter is incremented and the size grows by 1, capped at the
    ceiling, exactly when that makes three, otherwise the size is kept; from
    0.7 up to 0.9 the size is kept and both counters cleared.  A manager
    reached from its constructor has its failure counter at 0 and its
    success counter at 0, 1 or 2, the number of rates of at least 0.9 seen
    in a row.  So on a fresh manager three rates of at least 0.9 return [s], [s] and then
    [min(max, s + 1)]; rates 0.6, 0.6 from size 10 return 8 then 6; rates
    0.95, 0.95, 0.95 from size 5 with ceiling 20 return 5, 5, 6; rate 0.3
    from size 10 returns 5. *)
Theorem adjust_single_call (self : Controller.AdaptiveBatchManager) (r : Q) :
  let s := Controller.current_batch_size self in
  let top := Controller.max_batch_size self in
  ((r < Controller.lit_0_5)%Q ->
     Controller.adjust self r =
       (Controller.mkManager (Z.max 1 (s / 2)) top 0 0, Z.max 1 (s / 2)))
  /\ ((Controller.lit_0_5 <= r)%Q -> (r < Controller.lit_0_7)%Q ->
      0 <= Controller.consecutive_failures self ->
     Controller.adjust self r =
       (Controller.mkManager (Z.max 1 (s - 2)) top 0 0, Z.max 1 (s - 2)))
  /\ ((Controller.lit_0_9 <= r)%Q -> Controller.consecutive_successes self + 1 >= 3 ->
     Controller.adjust self r =
       (Controller.mkManager (Z.min top (s + 1)) top 0 0, Z.min top (s + 1)))
  /\ ((Controller.lit_0_9 <= r)%Q -> Controller.consecutive_successes self + 1 < 3 ->
     Controller.adjust self r =
       (Controller.mkManager s top (Controller.consecutive_successes self + 1) 0, s))
  /\ ((Controller.lit_0_7 <= r)%Q -> (r < Controller.lit_0_9)%Q ->
     Controller.adjust self r = (Controller.mkManager s top 0 0, s))
  /\ (forall rates : list Q,
        let reached := fst (Controller.adjust_all (Controller.init s top) rates) in
        Controller.consecutive_failures reached = 0
        /\ 0 <= Controller.consecutive_successes reached < 3)
  /\ (forall r1 r2 r3 : Q,
        (Controller.lit_0_9 <= r1)%Q -> (Controller.lit_0_9 <= r2)%Q ->
        (Controller.lit_0_9 <= r3)%Q ->
        snd (Controller.adjust_all (Controller.init s top) [r1; r2; r3]) =
          [s; s; Z.min top (s + 1)])
  /\ snd (Controller.adjust_all (Controller.init 10 Controller.default_max_batch_size)
            [Controller.lit_0_6; Controller.lit_0_6]) = [8; 6]
  /\ snd (Controller.adjust_all (Controller.init 5 20)
            [Controller.lit_0_95; Controller.lit_0_95; Controller.lit_0_95]) = [5; 5; 6]
  /\ snd (Controller.adjust_all (Controller.init 10 Controller.default_max_batch_size)
            [Controller.lit_0_3]) = [5].
Proof.
  intros s top. subst s top.
  pose proof lits_ordered as [L57 L79].
  pose proof rate_ge_0_9 as Hge.
  repeat match goal with |- _ /\ _ => split end.
  - intros Hr. unfold Controller.adjust, Controller.adjust_state.
    rate_cases r; try reflexivity; contradiction.
  - intros Hlo Hhi Hf. unfold Controller.adjust, Controller.adjust_state.
    rate_cases r; try contradiction.
    + exfalso. exact (Qlt_not_le _ _ H5 Hlo).
    + destruct (Z.leb_spec 1 (Controller.consecutive_failures self + 1)); [reflexivity|lia].
  - intros Hr Hc. unfold Controller.adjust, Controller.adjust_state.
    destruct (Hge r Hr) as (-> & -> & ->).
    destruct (Z.leb_spec 3 (Controller.consecutive_successes self + 1)); [reflexivity|lia].
  - intros Hr Hc. unfold Controller.adjust, Controller.adjust_state.
    destruct (Hge r Hr) as (-> & -> & ->).
    destruct (Z.leb_spec 3 (Controller.consecutive_successes self + 1)); [lia|reflexivity].
  - intros Hlo Hhi. unfold Controller.adjust, Controller.adjust_state.
    rate_cases r; try reflexivity; exfalso.
    + apply (Qlt_irrefl r). eapply Qlt_le_trans; [exact H5|].
      eapply Qle_trans; [|exact Hlo]. apply Qlt_le_weak. exact L57.
    + exact (Qlt_not_le _ _ H7 Hlo).
    + exact (Qlt_not_le _ _ Hhi H9).
  - intros rates reached. subst reached.
    apply counters_invariant; cbn; lia.
  - intros r1 r2 r3 H1 H2 H3. cbn.
    rewrite !adjust_state_ge_0_9 by assumption. cbn. reflexivity.
  - vm_compute. reflexivity.
  - vm_compute. reflexivity.
  - vm_compute. reflexivity.
Qed.

Lemma adjust_single_call_witness :
  (Controller.lit_0_5 <= Controller.lit_0_6)%Q /\
  (Controller.lit_0_6 < Controller.lit_0_7)%Q /\
  Controller.adjust (Controller.mkManager 10 20 2 0) Controller.lit_0_6 =
    (Controller.mkManager 8 20 0 0, 8).
Proof.
  assert (H1 : (Controller.lit_0_5 <= Controller.lit_0_6)%Q) by (vm_compute; discriminate).
  assert (H2 : (Controller.lit_0_6 < Controller.lit_0_7)%Q) by reflexivity.
  split; [exact H1|]. split; [exact H2|].
  destruct (adjust_single_call (Controller.mkManager 10 20 2 0) Controller.lit_0_6)
    as (_ & H & _).
  apply H; [exact H1 | exact H2 | cbn; lia].
Defined.

(** ** The gateway *)

Section GatewayFacts.
Import Gateway.

(** Whatever the subprocess does, the shared body returns a dictionary. *)
Lemma call_cli_returns (argv : list string) (w : world) (prompt : string) (timeout : Z) :
  exists r : result, call_cli argv w prompt timeout = Return r.
Proof.
  unfold call_cli.
  destruct (subprocess_run w argv timeout) as [proc|[|str_e]]; eauto.
Qed.

Lemma call_cli_timeout (argv : list string) (w : world) (prompt : string) (timeout : Z) :
  subprocess_run w argv timeout = Raise TimeoutExpired ->
  call_cli argv w prompt timeout =
    Return (mkResult false "" "timeout" (inject_Z timeout) (split_len prompt) 0).
Proof. intros H. unfold call_cli. rewrite H. reflexivity. Qed.

Lemma call_cli_nonzero (argv : list string) (w : world) (prompt : string) (timeout : Z)
    (proc : CompletedProcess) :
  subprocess_run w argv timeout = Return proc -> returncode proc <> 0 ->
  exists r, call_cli argv w prompt timeout = Return r
            /\ r_success r = false /\ r_stderr r = stderr proc.
Proof.
  intros H Hrc. unfold call_cli. rewrite H. eexists. split; [reflexivity|]. cbn.
  split; [|reflexivity]. apply Z.eqb_neq. exact Hrc.
Qed.

Lemma call_cli_raised (argv : list string) (w : world) (prompt : string) (timeout : Z)
    (str_e : string) :
  subprocess_run w argv timeout = Raise (OtherException str_e) ->
  exists r, call_cli argv w prompt timeout = Return r
            /\ r_success r = false /\ r_stderr r = str_e.
Proof.
  intros H. unfold call_cli. rewrite H. eexists. split; [reflexivity|]. cbn. auto.
Qed.

End GatewayFacts.

(** Both gateways share the body, so one argument covers them. *)
Lemma call_cli_reports_failures (argv : string -> list string) :
  Gateway.reports_failures (fun w prompt => Gateway.call_cli (argv prompt) w prompt) argv.
Proof.
  intros w prompt timeout.
  destruct (call_cli_returns (argv prompt) w prompt timeout) as [r Hr].
  exists r. split; [exact Hr|]. split; [|split].
  - intros H. rewrite (call_cli_timeout _ _ _ _ H) in Hr. injection Hr as <-.
    repeat split.
  - intros proc H Hrc.
    destruct (call_cli_nonzero _ _ prompt _ _ H Hrc) as (r' & Hr' & Hs).
    rewrite Hr in Hr'. injection Hr' as ->. exact Hs.
  - intros str_e H.
    destruct (call_cli_raised _ _ prompt _ _ H) as (r' & Hr' & Hs).
    rewrite Hr in Hr'. injection Hr' as ->. exact Hs.
Qed.

(** C5.  For every prompt, timeout and behaviour of the subprocess, each of
    [call_claude] and [call_codex] returns a dictionary and raises nothing.
    When the subprocess times out the dictionary has [success] false,
    [stderr] equal to ["timeout"] and [response_time] equal to the timeout;
    when it exits with a non-zero code, [success] is false and [stderr] is
    the captured standard error; when the call raises anything else,
    [success] is false and [stderr] is the text of the exception. *)
Theorem gateway_never_raises :
  Gateway.reports_failures Gateway.call_claude
    (fun prompt => ["claude"; "-p"; prompt]%string)
  /\ Gateway.reports_failures Gateway.call_codex
    (fun prompt => ["codex"; "exec"; prompt]%string).
Proof.
  split.
  - exact (call_cli_reports_failures (fun prompt => ["claude"; "-p"; prompt]%string)).
  - exact (call_cli_reports_failures (fun prompt => ["codex"; "exec"; prompt]%string)).
Qed.

Lemma gateway_never_raises_witness :
  exists r : Gateway.result,
    Gateway.call_claude Gateway.hanging_world "two words" 30 = Gateway.Return r
    /\ Gateway.r_success r = false /\ Gateway.r_stderr r = "timeout"%string
    /\ Gateway.r_response_time r = inject_Z 30.
Proof.
  destruct gateway_never_raises as [H _].
  destruct (H Gateway.hanging_world "two words"%string 30) as (r & Hr & Ht & _).
  exists r. split; [exact Hr|]. apply Ht. reflexivity.
Defined.

(** ** The store *)

Section StoreFacts.
Import Store.

Lemma same_key_spec (code_id : Z) (model : string) (r : model_prediction) :
  same_key code_id model r = true <-> mp_code_id r = code_id /\ mp_model_name r = model.
Proof.
  unfold same_key. rewrite andb_true_iff, Z.eqb_eq, String.eqb_eq. reflexivity.
Qed.

(** After a save the table holds exactly one row for the saved pair,
    whatever it held before. *)
Lemma save_leaves_one (self : MedicalCodingDB) (model : string) (a : prediction_args) :
  length (predictions_for (save model self a) (a_code_id a) model) = 1%nat.
Proof.
  unfold predictions_for, save, save_prediction_with_tokens. cbn.
  rewrite List.filter_app, length_app. cbn.
  assert (Hnew : same_key (a_code_id a) model
            (mkPrediction (next_rowid mp_id (model_predictions self)) (a_code_id a) model
               (a_model_version a) (a_description a) (a_predicted_codes a)
               (a_confidence a) (a_processing_time a) (a_input_tokens a)
               (a_output_tokens a) (a_batch_id a) (a_batch_size a)) = true).
  { apply same_key_spec. split; reflexivity. }
  cbn in Hnew. rewrite Hnew. cbn.
  assert (Hnone : List.filter (same_key (a_code_id a) model)
            (List.filter (fun r => negb (same_key (a_code_id a) model r))
                         (rows (model_predictions self))) = []).
  { induction (rows (model_predictions self)) as [|r l IH]; [reflexivity|].
    cbn. destruct (same_key (a_code_id a) model r) eqn:E; cbn; [exact IH|].
    rewrite E. exact IH. }
  rewrite Hnone. reflexivity.
Qed.

(** Rows of other pairs are neither removed nor added. *)
Lemma save_other_pairs (self : MedicalCodingDB) (model : string) (a : prediction_args)
    (code_id : Z) (model' : string) :
  (code_id, model') <> (a_code_id a, model) ->
  predictions_for (save model self a) code_id model' = predictions_for self code_id model'.
Proof.
  intros Hne. unfold predictions_for, save, save_prediction_with_tokens. cbn.
  rewrite List.filter_app. cbn.
  replace (same_key code_id model' _) with false.
  2:{ symmetry. apply not_true_is_false. rewrite same_key_spec. cbn.
      intros [H1 H2]. apply Hne. congruence. }
  rewrite app_nil_r.
  induction (rows (model_predictions self)) as [|r l IH]; [reflexivity|].
  cbn. destruct (same_key (a_code_id a) model r) eqn:E; cbn.
  - replace (same_key code_id model' r) with false; [exact IH|].
    symmetry. apply not_true_is_false. rewrite same_key_spec.
    apply same_key_spec in E. intros [H1 H2]. apply Hne. destruct E. congruence.
  - destruct (same_key code_id model' r); [f_equal|]; exact IH.
Qed.

(** The declared uniqueness is kept by every save. *)
Lemma save_keeps_unique (self : MedicalCodingDB) (model : string) (a : prediction_args) :
  unique_predictions self -> unique_predictions (save model self a).
Proof.
  unfold unique_predictions, save, save_prediction_with_tokens. cbn.
  set (key := fun r => (mp_code_id r, mp_model_name r)).
  intros Hu. rewrite map_app. cbn.
  apply NoDup_app. repeat split.
  - induction (rows (model_predictions self)) as [|r l IH]; cbn; [constructor|].
    apply NoDup_cons in Hu as [Hr Hl].
    destruct (same_key (a_code_id a) model r); cbn; [exact (IH Hl)|].
    apply NoDup_cons. split; [|exact (IH Hl)].
    intros Hin. apply Hr. apply list_elem_of_In in Hin. apply list_elem_of_In.
    apply in_map_iff in Hin as (r' & Hk & Hin). apply in_map_iff.
    exists r'. split; [exact Hk|]. apply filter_In in Hin. tauto.
  - intros k Hin Hin'. apply list_elem_of_In in Hin. apply list_elem_of_In in Hin'.
    destruct Hin' as [<-|[]].
    apply in_map_iff in Hin as (r' & Hk & Hin). apply filter_In in Hin as [_ Hneg].
    apply negb_true_iff in Hneg. apply not_true_iff_false in Hneg. apply Hneg.
    apply same_key_spec. unfold key in Hk. cbn in Hk. split; congruence.
  - apply NoDup_singleton.
Qed.

End StoreFacts.

Section PendingFacts.
Import Store.

Lemma save_all_snoc (model : string) (self : MedicalCodingDB)
    (batch : list prediction_args) (a : prediction_args) :
  save_all model self (batch ++ [a]) = save model (save_all model self batch) a.
Proof. unfold save_all. rewrite fold_left_app. reflexivity. Qed.

Lemma save_leaves_one_for (self : MedicalCodingDB) (model : string)
    (a : prediction_args) (code_id : Z) :
  a_code_id a = code_id ->
  length (predictions_for (save model self a) code_id model) = 1%nat.
Proof. intros <-. apply save_leaves_one. Qed.

(** Once a pair has been saved in a batch it has exactly one row at the end
    of the batch, however often it was saved. *)
Lemma save_all_leaves_one (model : string) (batch : list prediction_args) :
  forall (self : MedicalCodingDB) (code_id : Z),
  In code_id (map a_code_id batch) ->
  length (predictions_for (save_all model self batch) code_id model) = 1%nat.
Proof.
  induction batch as [|a batch IH] using rev_ind; intros self code_id Hin; [destruct Hin|].
  rewrite save_all_snoc.
  destruct (Z.eq_dec (a_code_id a) code_id) as [Heq|Hne].
  - apply save_leaves_one_for. exact Heq.
  - rewrite save_other_pairs by congruence.
    apply IH. rewrite map_app in Hin. apply in_app_or in Hin as [Hin|[Hin|[]]];
      [exact Hin | contradiction].
Qed.

Lemma save_all_keeps_unique (model : string) (batch : list prediction_args) :
  forall self : MedicalCodingDB,
  unique_predictions self -> unique_predictions (save_all model self batch).
Proof.
  induction batch as [|a batch IH]; intros self Hu; [exact Hu|].
  change (save_all model self (a :: batch))
    with (save_all model (save model self a) batch).
  apply IH. apply save_keeps_unique. exact Hu.
Qed.

Lemma has_prediction_rows (self : MedicalCodingDB) (model : string) (c : icd10_code) :
  has_prediction self model c = negb (Nat.eqb (length (predictions_for self (c_id c) model)) 0).
Proof.
  unfold has_prediction, predictions_for.
  induction (rows (model_predictions self)) as [|r l IH]; [reflexivity|].
  cbn. destruct (same_key (c_id c) model r); cbn; [reflexivity | exact IH].
Qed.

Lemma save_icd10_codes (model : string) (self : MedicalCodingDB) (a : prediction_args) :
  icd10_codes (save model self a) = icd10_codes self.
Proof. reflexivity. Qed.

Lemma save_all_icd10_codes (model : string) (batch : list prediction_args) :
  forall self, icd10_codes (save_all model self batch) = icd10_codes self.
Proof.
  induction batch as [|a batch IH]; intros self; [reflexivity|].
  change (save_all model self (a :: batch))
    with (save_all model (save model self a) batch).
  rewrite IH. reflexivity.
Qed.

(** A code has a prediction after a batch exactly when it had one before or
    the batch saved one for it. *)
Lemma has_prediction_save_all (model : string) (batch : list prediction_args) :
  forall (self : MedicalCodingDB) (c : icd10_code),
  has_prediction (save_all model self batch) model c =
    has_prediction self model c || persisted_in (map a_code_id batch) c.
Proof.
  induction batch as [|a batch IH] using rev_ind; intros self c.
  - cbn. rewrite orb_false_r. reflexivity.
  - rewrite save_all_snoc, map_app. unfold persisted_in. rewrite existsb_app.
    cbn [map existsb]. rewrite orb_false_r.
    destruct (Z.eqb_spec (c_id c) (a_code_id a)) as [Heq|Hne].
    + rewrite (has_prediction_rows (save model _ a)).
      rewrite save_leaves_one_for by (symmetry; exact Heq).
      cbn. rewrite !orb_true_r. reflexivity.
    + rewrite orb_false_r.
      rewrite (has_prediction_rows (save model _ a)).
      rewrite save_other_pairs by congruence.
      rewrite <- has_prediction_rows. apply IH.
Qed.

Lemma filter_filter_andb {A} (f g : A -> bool) (l : list A) :
  List.filter f (List.filter g l) = List.filter (fun x => g x && f x) l.
Proof.
  induction l as [|x l IH]; [reflexivity|].
  cbn. destruct (g x); cbn; [destruct (f x)|]; rewrite IH; reflexivity.
Qed.

(** The pending set after a batch is the old one without the persisted
    codes, in the same order. *)
Lemma pending_save_all (model : string) (batch : list prediction_args)
    (self : MedicalCodingDB) :
  pending (save_all model self batch) model =
    List.filter (fun c => negb (persisted_in (map a_code_id batch) c)) (pending self model).
Proof.
  unfold pending. rewrite save_all_icd10_codes, filter_filter_andb.
  apply List.filter_ext. intros c. rewrite has_prediction_save_all.
  apply negb_orb.
Qed.

Lemma get_unprocessed_codes_model (self : MedicalCodingDB) (limit : Z) (m : string) :
  m <> ""%string ->
  get_unprocessed_codes self limit (Some m) = sql_limit limit (pending self m).
Proof.
  intros Hm. unfold get_unprocessed_codes.
  destruct (String.eqb_spec m ""); [contradiction | reflexivity].
Qed.

Lemma NoDup_map_filter {A B} (f : A -> B) (g : A -> bool) (l : list A) :
  NoDup (map f l) -> NoDup (map f (List.filter g l)).
Proof.
  induction l as [|x l IH]; cbn; intros Hn; [exact Hn|].
  apply NoDup_cons in Hn as [Hx Hl].
  destruct (g x); cbn; [|exact (IH Hl)].
  apply NoDup_cons. split; [|exact (IH Hl)].
  intros Hin. apply Hx. apply list_elem_of_In in Hin. apply list_elem_of_In.
  apply in_map_iff in Hin as (y & Hy & Hin). apply in_map_iff.
  exists y. split; [exact Hy|]. apply filter_In in Hin. tauto.
Qed.

Lemma NoDup_map_firstn {A B} (f : A -> B) (n : nat) (l : list A) :
  NoDup (map f l) -> NoDup (map f (firstn n l)).
Proof.
  intros Hn. rewrite <- (firstn_skipn n l), map_app in Hn.
  apply NoDup_app in Hn. tauto.
Qed.

Lemma NoDup_map_sql_limit {A B} (f : A -> B) (limit : Z) (l : list A) :
  NoDup (map f l) -> NoDup (map f (sql_limit limit l)).
Proof.
  unfold sql_limit. destruct (limit <? 0); [tauto | apply NoDup_map_firstn].
Qed.

Lemma sql_limit_In {A} (limit : Z) (l : list A) (x : A) :
  In x (sql_limit limit l) -> In x l.
Proof.
  unfold sql_limit. destruct (limit <? 0); [tauto|].
  intros H. rewrite <- (firstn_skipn (Z.to_nat limit) l). apply in_or_app. tauto.
Qed.

(** The anti-join pattern on any stage.  [work] is the pending list before
    [LIMIT], its units identified by [key]; persisting units of the first
    page removes them from the pending list and changes nothing else. *)
Lemma limit_after_progress {A} (key : A -> Z) (limit : Z) (work : list A)
    (persisted : list Z) :
  NoDup (map key work) ->
  let first := sql_limit limit work in
  (forall id, In id persisted -> In id (map key first)) ->
  let keep := fun c => negb (existsb (Z.eqb (key c)) persisted) in
  let second := sql_limit limit (List.filter keep work) in
  let remaining := List.filter keep first in
  (forall c, In c second -> ~ In (key c) persisted)
  /\ NoDup (map key second)
  /\ (exists more, second = remaining ++ more)
  /\ (limit < 0 \/ Z.of_nat (length first) < limit -> second = remaining)
  /\ (NoDup persisted -> length remaining = (length first - length persisted)%nat).
Proof.
  intros Hnd first Hsub keep second remaining. subst first second remaining.
  assert (Hkeep : forall c, keep c = true <-> ~ In (key c) persisted).
  { intros c. unfold keep. rewrite negb_true_iff, <- not_true_iff_false, existsb_exists.
    split; intros H H'; apply H.
    - exists (key c). split; [exact H' | apply Z.eqb_refl].
    - destruct H' as (x & Hin & Heq). apply Z.eqb_eq in Heq. congruence. }
  (* the part of the pending list the first call did not return *)
  assert (Hsplit : exists rest, work = sql_limit limit work ++ rest
            /\ (limit < 0 \/ Z.of_nat (length (sql_limit limit work)) < limit -> rest = [])
            /\ (0 <= limit -> (length (sql_limit limit work) <= Z.to_nat limit)%nat)).
  { unfold sql_limit. destruct (Z.ltb_spec limit 0) as [Hneg|Hpos].
    - exists []. rewrite app_nil_r. repeat split; lia.
    - exists (skipn (Z.to_nat limit) work). split; [symmetry; apply firstn_skipn|]. split.
      + intros [Hl|Hl]; [lia|]. apply skipn_all2.
        rewrite length_firstn in Hl. lia.
      + intros _. rewrite length_firstn. lia. }
  destruct Hsplit as (rest & HA & Hrest & Hlen).
  set (F := sql_limit limit work) in *.
  assert (Hkeep_rest : List.filter keep rest = rest).
  { apply forallb_filter_id. apply forallb_forall. intros c Hc.
    apply Hkeep. intros Hp. apply Hsub in Hp.
    rewrite HA, map_app in Hnd. apply NoDup_app in Hnd as (_ & Hdisj & _).
    apply (Hdisj (key c)).
    - apply list_elem_of_In. exact Hp.
    - apply list_elem_of_In. apply in_map. exact Hc. }
  assert (Hfilter : List.filter keep work = List.filter keep F ++ rest).
  { rewrite HA at 1. rewrite List.filter_app, Hkeep_rest. reflexivity. }
  assert (Hsecond : exists more, sql_limit limit (List.filter keep work)
                                 = List.filter keep F ++ more
                                 /\ (rest = [] -> more = [])).
  { rewrite Hfilter. unfold sql_limit at 1.
    destruct (Z.ltb_spec limit 0) as [Hneg|Hpos].
    - exists rest. split; [reflexivity | tauto].
    - exists (firstn (Z.to_nat limit - length (List.filter keep F)) rest). split.
      + apply take_app_ge.
        pose proof (filter_length_le keep F). specialize (Hlen Hpos). lia.
      + intros ->. apply firstn_nil. }
  destruct Hsecond as (more & Hsec & Hmore).
  repeat match goal with |- _ /\ _ => split end.
  - intros c Hc. apply sql_limit_In in Hc. apply filter_In in Hc as [_ Hk].
    apply Hkeep. exact Hk.
  - apply NoDup_map_sql_limit. apply NoDup_map_filter. exact Hnd.
  - exists more. exact Hsec.
  - intros Hl. rewrite Hsec, (Hmore (Hrest Hl)). apply app_nil_r.
  - intros Hp.
    assert (HndF : NoDup (map key F)) by (apply NoDup_map_sql_limit; exact Hnd).
    assert (Hcount :
              (length (List.filter (fun c => existsb (Z.eqb (key c)) persisted) F)
               + length (List.filter keep F))%nat = length F)
      by exact (filter_length (fun c => existsb (Z.eqb (key c)) persisted) F).
    assert (Hperm : Permutation
              (map key (List.filter (fun c => existsb (Z.eqb (key c)) persisted) F))
              persisted).
    { apply NoDup_Permutation.
      - apply NoDup_map_filter. exact HndF.
      - exact Hp.
      - intros id. rewrite !list_elem_of_In, in_map_iff. split.
        + intros (c & <- & Hc). apply filter_In in Hc as [_ Hc].
          apply existsb_exists in Hc as (x & Hin & Heq).
          apply Z.eqb_eq in Heq. congruence.
        + intros Hid. destruct (proj1 (in_map_iff _ _ _) (Hsub id Hid)) as (c & Hc & HcF).
          exists c. split; [exact Hc|]. apply filter_In. split; [exact HcF|].
          apply existsb_exists. exists id. split; [exact Hid|].
          apply Z.eqb_eq. exact Hc. }
    apply Permutation_length in Hperm. rewrite length_map in Hperm. lia.
Qed.

End PendingFacts.

(** C3, as the store has it.  [save_prediction_with_tokens] is an upsert on
    [model_predictions]: after a batch of saves for one model, every code
    id the batch saved has exactly one row for that model, however many
    times it was saved and whatever the table held before, and a table
    that satisfied [UNIQUE(code_id, model_name)] still does. *)
Theorem model_predictions_upsert (self : Store.MedicalCodingDB) (model : string)
    (batch : list Store.prediction_args) (a : Store.prediction_args) :
  In a batch ->
  length (Store.predictions_for (Store.save_all model self batch)
            (Store.a_code_id a) model) = 1%nat
  /\ (Store.unique_predictions self ->
      Store.unique_predictions (Store.save_all model self batch)).
Proof.
  intros Hin. split.
  - apply save_all_leaves_one. apply in_map. exact Hin.
  - apply save_all_keeps_unique.
Qed.

Lemma model_predictions_upsert_witness :
  In (Store.example_args 1) [Store.example_args 1; Store.example_args 1] /\
  length (Store.predictions_for
            (Store.save_all "claude" Store.example_db
               [Store.example_args 1; Store.example_args 1]) 1 "claude") = 1%nat.
Proof.
  split; [left; reflexivity|].
  apply (model_predictions_upsert Store.example_db "claude"
           [Store.example_args 1; Store.example_args 1] (Store.example_args 1)).
  left. reflexivity.
Defined.

(** C3 fails on the retrieval-augmented prediction tables: storing the same
    result twice for one (description id, model) leaves two rows. *)
Lemma rag_predictions_duplicate :
  let once := Store.store_rag_results "claude" Store.empty_table [Store.example_rag_result] in
  let twice := Store.store_rag_results "claude" once [Store.example_rag_result] in
  length (Store.rag_predictions_for twice 7 "claude") = 2%nat
  /\ length (Store.rag_predictions_for twice 7 "claude") <> 1%nat.
Proof. vm_compute. split; [reflexivity | discriminate]. Qed.

(** C4, as the store has it.  Take the units a first [get_unprocessed_codes]
    call returns for a model, persist any of them, and call again with the
    same limit.  The second result holds no persisted unit and no unit
    twice, and it starts with the units of the first result that were not
    persisted, in their order.  It is exactly those units when the first
    call was not cut by the limit (no limit, or fewer rows than the limit);
    otherwise the limit lets further pending codes follow them.  When the
    persisted ids are distinct, the units left over from the first result
    number [N - p], which is [ceil(N/2)] for [p = floor(N/2)]. *)
Theorem pending_work_after_partial_progress (self : Store.MedicalCodingDB)
    (limit : Z) (model : string) (batch : list Store.prediction_args) :
  model <> ""%string ->
  NoDup (map Store.c_id (Store.icd10_codes self)) ->
  let first := Store.get_unprocessed_codes self limit (Some model) in
  let persisted := map Store.a_code_id batch in
  (forall id, In id persisted -> In id (map Store.c_id first)) ->
  let second :=
    Store.get_unprocessed_codes (Store.save_all model self batch) limit (Some model) in
  let remaining :=
    List.filter (fun c => negb (Store.persisted_in persisted c)) first in
  (forall c, In c second -> ~ In (Store.c_id c) persisted)
  /\ NoDup (map Store.c_id second)
  /\ (exists more, second = remaining ++ more)
  /\ (limit < 0 \/ Z.of_nat (length first) < limit -> second = remaining)
  /\ (NoDup persisted ->
      length remaining = (length first - length persisted)%nat).
Proof.
  intros Hm Hnd first persisted Hsub second remaining.
  subst first second remaining.
  rewrite !get_unprocessed_codes_model in * by exact Hm.
  rewrite pending_save_all. fold persisted.
  apply (limit_after_progress Store.c_id limit (Store.pending self model) persisted).
  - apply NoDup_map_filter. exact Hnd.
  - exact Hsub.
Qed.

Lemma pending_work_after_partial_progress_witness :
  "claude"%string <> ""%string /\
  NoDup (map Store.c_id (Store.icd10_codes Store.example_db)) /\
  Store.get_unprocessed_codes
    (Store.save_all "claude" Store.example_db [Store.example_args 1; Store.example_args 2])
    10 (Some "claude"%string) =
  List.filter
    (fun c => negb (Store.persisted_in
                      (map Store.a_code_id [Store.example_args 1; Store.example_args 2]) c))
    (Store.get_unprocessed_codes Store.example_db 10 (Some "claude"%string)).
Proof.
  assert (Hm : "claude"%string <> ""%string) by discriminate.
  assert (Hnd : NoDup (map Store.c_id (Store.icd10_codes Store.example_db))).
  { apply (bool_decide_unpack _). vm_compute. exact I. }
  split; [exact Hm|]. split; [exact Hnd|].
  destruct (pending_work_after_partial_progress Store.example_db 10 "claude"
              [Store.example_args 1; Store.example_args 2] Hm Hnd)
    as (_ & _ & _ & H & _).
  - intros id Hid. vm_compute in Hid. vm_compute. tauto.
  - apply H. right. vm_compute. reflexivity.
Defined.

(** C4 fails as stated: with four pending codes and limit 2 the first call
    returns N = 2 units; after floor(N/2) = 1 of them is persisted the next
    call returns two units, the one left over and a new one, not just the
    ceil(N/2) = 1 left over. *)
Lemma pending_work_refills_to_limit :
  let first := Store.get_unprocessed_codes Store.example_db 2 (Some "claude"%string) in
  let self' := Store.save_all "claude" Store.example_db [Store.example_args 1] in
  let second := Store.get_unprocessed_codes self' 2 (Some "claude"%string) in
  map Store.c_id first = [1; 2]
  /\ length [Store.example_args 1] = (length first / 2)%nat
  /\ map Store.c_id second = [2; 3]
  /\ length second <> (length first - length first / 2)%nat.
Proof. vm_compute. repeat split; discriminate. Qed.

Section ReverseFacts.
Import Store.
Context (unique_pair : bool).

Lemma reverse_key_spec (desc_id : Z) (model : string) (r : reverse_prediction) :
  reverse_key desc_id model r = true
  <-> rv_generated_desc_id r = desc_id /\ rv_predictor_model r = model.
Proof.
  unfold reverse_key. rewrite andb_true_iff, Z.eqb_eq, String.eqb_eq. reflexivity.
Qed.

Lemma existsb_filter_other {A} (f g : A -> bool) (l : list A) :
  (forall x, f x = true -> g x = true) ->
  existsb f (List.filter g l) = existsb f l.
Proof.
  intros Hfg. induction l as [|x l IH]; [reflexivity|].
  cbn. destruct (g x) eqn:Eg; cbn; rewrite IH; [reflexivity|].
  destruct (f x) eqn:Ef; [|reflexivity].
  rewrite (Hfg x Ef) in Eg. discriminate.
Qed.

(** A description has a reverse prediction after a save exactly when it had
    one before or the save was for it, with or without the unique pair. *)
Lemma has_reverse_prediction_save (model : string) (t : reverse_tables)
    (r : reverse_prediction) (gd : generated_description) :
  has_reverse_prediction (save_reverse_prediction unique_pair model t r) model gd
  = has_reverse_prediction t model gd || (gd_id gd =? rv_generated_desc_id r).
Proof.
  unfold has_reverse_prediction, save_reverse_prediction. cbn [rt_predictions].
  rewrite existsb_app. cbn [existsb]. rewrite orb_false_r.
  assert (Hnew : forall codes conf time,
            reverse_key (gd_id gd) model
              (mkReverse (rv_generated_desc_id r) model codes conf time)
            = (gd_id gd =? rv_generated_desc_id r)).
  { intros. unfold reverse_key. cbn [rv_generated_desc_id rv_predictor_model].
    rewrite String.eqb_refl, andb_true_r. apply Z.eqb_sym. }
  rewrite Hnew. clear Hnew.
  destruct unique_pair; [|reflexivity].
  destruct (Z.eqb_spec (gd_id gd) (rv_generated_desc_id r)) as [Heq|Hne].
  - rewrite !orb_true_r. reflexivity.
  - f_equal. apply existsb_filter_other. intros r' Hr'.
    apply negb_true_iff, not_true_iff_false. rewrite reverse_key_spec.
    apply reverse_key_spec in Hr'. intros [H1 _]. destruct Hr'. congruence.
Qed.

Lemma save_reverse_predictions_tables (model : string) (batch : list reverse_prediction) :
  forall t,
  rt_codes (save_reverse_predictions unique_pair model t batch) = rt_codes t
  /\ rt_descriptions (save_reverse_predictions unique_pair model t batch)
     = rt_descriptions t.
Proof.
  induction batch as [|r batch IH]; intros t; [split; reflexivity|].
  change (save_reverse_predictions unique_pair model t (r :: batch))
    with (save_reverse_predictions unique_pair model
            (save_reverse_prediction unique_pair model t r) batch).
  destruct (IH (save_reverse_prediction unique_pair model t r)) as [-> ->].
  split; reflexivity.
Qed.

Lemma has_reverse_prediction_save_all (model : string) (batch : list reverse_prediction) :
  forall (t : reverse_tables) (gd : generated_description),
  has_reverse_prediction (save_reverse_predictions unique_pair model t batch) model gd
  = has_reverse_prediction t model gd
    || existsb (Z.eqb (gd_id gd)) (map rv_generated_desc_id batch).
Proof.
  induction batch as [|r batch IH]; intros t gd.
  - cbn. rewrite orb_false_r. reflexivity.
  - change (save_reverse_predictions unique_pair model t (r :: batch))
      with (save_reverse_predictions unique_pair model
              (save_reverse_prediction unique_pair model t r) batch).
    rewrite IH, has_reverse_prediction_save. cbn [map existsb].
    rewrite orb_assoc. reflexivity.
Qed.

Lemma filter_flat_map {A B} (f : B -> bool) (g : A -> list B) (l : list A) :
  List.filter f (flat_map g l) = flat_map (fun x => List.filter f (g x)) l.
Proof.
  induction l as [|x l IH]; [reflexivity|].
  cbn. rewrite List.filter_app, IH. reflexivity.
Qed.

(** The pending descriptions after a batch are the old ones without those
    persisted, in the same order. *)
Lemma pending_descriptions_save_all (model : string) (batch : list reverse_prediction)
    (t : reverse_tables) :
  pending_descriptions (save_reverse_predictions unique_pair model t batch) model
  = List.filter
      (fun row => negb (existsb (Z.eqb (row_desc_id row)) (map rv_generated_desc_id batch)))
      (pending_descriptions t model).
Proof.
  unfold pending_descriptions. rewrite filter_flat_map.
  destruct (save_reverse_predictions_tables model batch t) as [-> ->].
  apply flat_map_ext. intros gd.
  rewrite has_reverse_prediction_save_all.
  destruct (has_reverse_prediction t model gd); [reflexivity|]. cbn [orb].
  induction (List.filter (fun ic => c_id ic =? gd_code_id gd) (rt_codes t)) as [|ic l IH].
  - destruct (existsb _ _); reflexivity.
  - cbn [map List.filter row_desc_id].
    destruct (existsb (Z.eqb (gd_id gd)) (map rv_generated_desc_id batch)) eqn:E;
      cbn [negb]; [exact IH | f_equal; exact IH].
Qed.

Lemma filter_by_id_short (id : Z) (codes : list icd10_code) :
  NoDup (map c_id codes) ->
  (length (List.filter (fun ic => (c_id ic =? id)%Z) codes) <= 1)%nat.
Proof.
  induction codes as [|ic codes IH]; cbn; intros Hnd; [lia|].
  apply NoDup_cons in Hnd as [Hic Hnd].
  destruct (Z.eqb_spec (c_id ic) id) as [Heq|Hne]; [|exact (IH Hnd)].
  cbn. replace (List.filter (fun ic0 => c_id ic0 =? id) codes) with (@nil icd10_code);
    [cbn; lia|].
  symmetry. clear IH Hnd. induction codes as [|x codes IH]; [reflexivity|].
  cbn. destruct (Z.eqb_spec (c_id x) id) as [Hx|Hx].
  - exfalso. apply Hic. cbn. rewrite Heq, <- Hx. apply list_elem_of_here.
  - apply IH. intros Hin. apply Hic. cbn. apply list_elem_of_further. exact Hin.
Qed.

Lemma pending_rows_keys (t : reverse_tables) (model : string)
    (descriptions : list generated_description) :
  NoDup (map c_id (rt_codes t)) ->
  NoDup (map gd_id descriptions) ->
  let rows :=
    flat_map (fun gd =>
        if has_reverse_prediction t model gd then []
        else map (fun ic => (gd_id gd, gd_code_id gd, gd_detail_level gd,
                             gd_description gd, c_code ic))
                 (List.filter (fun ic => c_id ic =? gd_code_id gd) (rt_codes t)))
      descriptions in
  NoDup (map row_desc_id rows)
  /\ (forall id, In id (map row_desc_id rows) -> In id (map gd_id descriptions)).
Proof.
  intros Hcodes. induction descriptions as [|gd l IH]; intros Hnd rows; subst rows.
  - split; [constructor | tauto].
  - apply NoDup_cons in Hnd as [Hgd Hnd]. destruct (IH Hnd) as [IH1 IH2].
    cbn [flat_map]. rewrite map_app.
    assert (Hhead : forall id,
              In id (map row_desc_id
                (if has_reverse_prediction t model gd then []
                 else map (fun ic => (gd_id gd, gd_code_id gd, gd_detail_level gd,
                                      gd_description gd, c_code ic))
                          (List.filter (fun ic => c_id ic =? gd_code_id gd) (rt_codes t))))
              -> id = gd_id gd).
    { intros id. destruct (has_reverse_prediction t model gd); [intros []|].
      rewrite map_map. cbn. rewrite in_map_iff. intros (ic & <- & _). reflexivity. }
    split.
    + apply NoDup_app. repeat split.
      * destruct (has_reverse_prediction t model gd); [constructor|].
        pose proof (filter_by_id_short (gd_code_id gd) (rt_codes t) Hcodes) as Hlen.
        destruct (List.filter _ (rt_codes t)) as [|ic [|ic' rest]];
          cbn in Hlen |- *; [constructor | apply NoDup_singleton | lia].
      * intros id Hin Hin'. apply list_elem_of_In in Hin. apply list_elem_of_In in Hin'.
        apply Hhead in Hin. subst id. apply Hgd. apply list_elem_of_In.
        apply IH2. exact Hin'.
      * exact IH1.
    + intros id Hin. apply in_app_or in Hin as [Hin|Hin].
      * left. symmetry. apply Hhead. exact Hin.
      * right. apply IH2. exact Hin.
Qed.

(** The reverse-prediction stage resumes the same way as
    [get_unprocessed_codes]: persisting descriptions of the first page
    removes exactly those from what the next [SELECT] sees, whether or not
    the table declares the pair unique. *)
Lemma reverse_pending_after_partial_progress (t : reverse_tables) (model : string)
    (max_predictions : Z) (batch : list reverse_prediction) :
  NoDup (map c_id (rt_codes t)) ->
  NoDup (map gd_id (rt_descriptions t)) ->
  let first := select_descriptions t model max_predictions in
  let persisted := map rv_generated_desc_id batch in
  (forall id, In id persisted -> In id (map row_desc_id first)) ->
  let second :=
    select_descriptions (save_reverse_predictions unique_pair model t batch)
      model max_predictions in
  let remaining :=
    List.filter (fun row => negb (existsb (Z.eqb (row_desc_id row)) persisted)) first in
  (forall row, In row second -> ~ In (row_desc_id row) persisted)
  /\ NoDup (map row_desc_id second)
  /\ (exists more, second = remaining ++ more)
  /\ (max_predictions < 0 \/ Z.of_nat (length first) < max_predictions ->
      second = remaining)
  /\ (NoDup persisted -> length remaining = (length first - length persisted)%nat).
Proof.
  intros Hcodes Hdescs first persisted Hsub second remaining.
  subst first second remaining. unfold select_descriptions in *.
  rewrite pending_descriptions_save_all. fold persisted.
  apply (limit_after_progress row_desc_id max_predictions
           (pending_descriptions t model) persisted).
  - apply (pending_rows_keys t model (rt_descriptions t) Hcodes Hdescs).
  - exact Hsub.
Qed.

End ReverseFacts.

(** ** The run lock *)

(** C9.  When the lock file exists at start-up, [create_lock_file] answers
    false and the generation entry point exits with status 1 at once: the
    generation loop is never entered, nothing is written to the store, and
    the lock found is still there with its text unchanged. *)
Theorem lock_held_fails_fast {write : Type}
    (start_api_server continuous_generation_loop : Lock.system write -> Lock.system write)
    (pid now : string) (s : Lock.system write) (holder : string) :
  Lock.lock_file s = Some holder ->
  Lock.create_lock_file pid now s = (s, false)
  /\ Lock.main start_api_server continuous_generation_loop false pid now s = (s, Lock.Exit 1)
  /\ Lock.store_writes
       (fst (Lock.main start_api_server continuous_generation_loop false pid now s))
     = Lock.store_writes s
  /\ Lock.lock_file
       (fst (Lock.main start_api_server continuous_generation_loop false pid now s))
     = Some holder.
Proof.
  intros Hheld.
  assert (Hc : Lock.create_lock_file pid now s = (s, false)).
  { unfold Lock.create_lock_file. rewrite Hheld. reflexivity. }
  assert (Hmain : Lock.main start_api_server continuous_generation_loop false pid now s
                  = (s, Lock.Exit 1)).
  { unfold Lock.main. rewrite Hc. reflexivity. }
  rewrite Hmain. cbn. auto.
Qed.

Lemma lock_held_fails_fast_witness :
  Lock.lock_file (Lock.mkSystem (Some "4242"%string) ([] : list nat)) = Some "4242"%string /\
  Lock.main (fun s => s) (fun s => Lock.mkSystem (Lock.lock_file s) (1%nat :: Lock.store_writes s))
    false "4343" "2025-01-01T00:00:00" (Lock.mkSystem (Some "4242"%string) [])
  = (Lock.mkSystem (Some "4242"%string) [], Lock.Exit 1).
Proof.
  split; [reflexivity|].
  apply (lock_held_fails_fast (fun s => s)
           (fun s => Lock.mkSystem (Lock.lock_file s) (1%nat :: Lock.store_writes s))
           "4343" "2025-01-01T00:00:00" (Lock.mkSystem (Some "4242"%string) []) "4242").
  reflexivity.
Defined.

(** ** The retrieval engine *)

Section RankingFacts.
Import Retrieval.

Lemma insert_index_In (a : list Q) (i : nat) (sorted : list nat) (x : nat) :
  In x (insert_index a i sorted) <-> x = i \/ In x sorted.
Proof.
  induction sorted as [|j rest IH]; cbn; [intuition|].
  destruct (Qltb (nth i a 0%Q) (nth j a 0%Q)); cbn; [intuition|].
  rewrite IH. intuition.
Qed.

Lemma insert_index_perm (a : list Q) (i : nat) (sorted : list nat) :
  Permutation (insert_index a i sorted) (i :: sorted).
Proof.
  induction sorted as [|j rest IH]; cbn; [reflexivity|].
  destruct (Qltb (nth i a 0%Q) (nth j a 0%Q)); [reflexivity|].
  rewrite IH. apply perm_swap.
Qed.

Lemma index_before_trans (a : list Q) (i j k : nat) :
  index_before a i j -> index_before a j k -> index_before a i k.
Proof.
  unfold index_before. intros [H1|[H1 L1]] [H2|[H2 L2]].
  - left. eapply Qlt_trans; eassumption.
  - left. rewrite <- H2. exact H1.
  - left. rewrite H1. exact H2.
  - right. split; [rewrite H1; exact H2 | lia].
Qed.

(** Inserting an index larger than all those present keeps the order. *)
Lemma insert_index_sorted (a : list Q) (i : nat) (sorted : list nat) :
  StronglySorted (index_before a) sorted ->
  Forall (fun j => (j < i)%nat) sorted ->
  StronglySorted (index_before a) (insert_index a i sorted).
Proof.
  induction sorted as [|j rest IH]; intros Hs Hlt; cbn.
  - repeat constructor.
  - apply StronglySorted_inv in Hs as [Hs Hj].
    apply Forall_cons in Hlt as [Hji Hlt].
    destruct (Qltb_spec (nth i a 0%Q) (nth j a 0%Q)) as [Hij|Hij].
    + constructor; [constructor; assumption|].
      constructor; [left; exact Hij|].
      eapply Forall_impl; [exact Hj|]. intros k Hk.
      eapply index_before_trans; [left; exact Hij | exact Hk].
    + constructor; [apply IH; assumption|].
      apply Forall_forall. intros k Hk. apply list_elem_of_In in Hk.
      apply insert_index_In in Hk as [->|Hk].
      * apply Qnot_lt_le in Hij. apply Qle_lt_or_eq in Hij as [Hlt'|Heq].
        -- left. exact Hlt'.
        -- right. split; [exact Heq | exact Hji].
      * rewrite Forall_forall in Hj. apply Hj. apply list_elem_of_In. exact Hk.
Qed.

Lemma np_argsort_from (a : list Q) (n : nat) : forall (start : nat) (sorted : list nat),
  StronglySorted (index_before a) sorted ->
  Forall (fun j => (j < start)%nat) sorted ->
  let out := fold_left (fun sorted i => insert_index a i sorted) (seq start n) sorted in
  StronglySorted (index_before a) out /\ Permutation out (sorted ++ seq start n).
Proof.
  induction n as [|n IH]; intros start sorted Hs Hlt; cbn.
  - rewrite app_nil_r. split; [exact Hs | reflexivity].
  - destruct (IH (S start) (insert_index a start sorted)) as [H1 H2].
    + apply insert_index_sorted; assumption.
    + apply Forall_forall. intros k Hk. apply list_elem_of_In in Hk.
      apply insert_index_In in Hk as [->|Hk]; [lia|].
      rewrite Forall_forall in Hlt. apply list_elem_of_In in Hk.
      specialize (Hlt k Hk). cbn in Hlt. lia.
    + split; [exact H1|]. rewrite H2, insert_index_perm.
      cbn. apply Permutation_middle.
Qed.

(** [np_argsort] is a stable ascending sort of the indices. *)
Lemma np_argsort_stable (a : list Q) :
  StronglySorted (index_before a) (np_argsort a)
  /\ Permutation (np_argsort a) (seq 0 (length a)).
Proof.
  unfold np_argsort.
  destruct (np_argsort_from a (length a) 0 []) as [H1 H2];
    [constructor | constructor | ].
  split; [exact H1 | exact H2].
Qed.

Lemma StronglySorted_weaken {A} (R R' : A -> A -> Prop) (l : list A) :
  (forall x y, R x y -> R' x y) -> StronglySorted R l -> StronglySorted R' l.
Proof.
  intros HR Hs. induction Hs as [|x l Hs IH Hx]; constructor; [exact IH|].
  eapply Forall_impl; [exact Hx|]. intros y. apply HR.
Qed.

Lemma index_before_le (a : list Q) (i j : nat) :
  index_before a i j -> (nth i a 0 <= nth j a 0)%Q.
Proof.
  intros [Hlt|[Heq _]]; [apply Qlt_le_weak; exact Hlt|].
  rewrite Heq. apply Qle_refl.
Qed.

Lemma np_argsort_meets_spec : argsort_spec np_argsort.
Proof.
  intros a. destruct (np_argsort_stable a) as [Hs Hp]. split; [exact Hp|].
  eapply StronglySorted_weaken; [|exact Hs]. apply index_before_le.
Qed.

End RankingFacts.

Section QueryFacts.
Import Retrieval.
Context (sk : sklearn).

(** The loop extends [results] by a prefix of the candidates. *)
Lemma scan_prefix (top_k : Z) (exclude_code source_filter : option string)
    (meta : list metadata) (sims : list Q) (indices : list nat) :
  forall results res,
  scan top_k exclude_code source_filter meta sims indices results = Some res ->
  exists n, res = results ++ firstn n (candidates exclude_code source_filter meta sims indices).
Proof.
  induction indices as [|idx rest IH]; intros results res Hscan; cbn in Hscan.
  - injection Hscan as <-. exists 0%nat. cbn. rewrite app_nil_r. reflexivity.
  - cbn [candidates flat_map].
    destruct (meta !! idx) as [m|]; [|discriminate].
    destruct (sims !! idx) as [s|]; [|discriminate].
    destruct (excluded exclude_code m); cbn [orb]; [exact (IH _ _ Hscan)|].
    destruct (filtered_out source_filter m); [exact (IH _ _ Hscan)|].
    cbn [app].
    destruct (Z.of_nat (length (results ++ [make_hit m s])) >=? top_k).
    + injection Hscan as <-. exists 1%nat. reflexivity.
    + destruct (IH _ _ Hscan) as [n ->]. exists (S n).
      rewrite <- app_assoc. reflexivity.
Qed.


(** Where a candidate comes from. *)
Lemma candidates_In (exclude_code source_filter : option string)
    (meta : list metadata) (sims : list Q) (indices : list nat) (h : hit) :
  In h (candidates exclude_code source_filter meta sims indices) ->
  exists idx m s,
    In idx indices /\ meta !! idx = Some m /\ sims !! idx = Some s
    /\ h = make_hit m s
    /\ excluded exclude_code m = false /\ filtered_out source_filter m = false.
Proof.
  unfold candidates. rewrite in_flat_map. intros (idx & Hidx & Hh).
  destruct (meta !! idx) as [m|] eqn:Em; [|destruct Hh].
  destruct (sims !! idx) as [s|] eqn:Es; [|destruct Hh].
  destruct (excluded exclude_code m) eqn:Ex; cbn in Hh; [destruct Hh|].
  destruct (filtered_out source_filter m) eqn:Ef; cbn in Hh; [destruct Hh|].
  destruct Hh as [<-|[]]. exists idx, m, s. auto 10.
Qed.

Lemma find_similar_with_prefix (argsort : list Q -> list nat)
    (self : MedicalCodingRAG sk) (query : string) (top_k : Z)
    (exclude_code source_filter : option string) (res : list hit) :
  find_similar_with sk argsort self query top_k exclude_code source_filter = Some res ->
  exists sims n,
    scores sk self query = Some sims
    /\ res = firstn n (candidates exclude_code source_filter (corpus_metadata sk self)
                         sims (rev (argsort sims))).
Proof.
  unfold find_similar_with, scores.
  destruct (vectorizer sk self) as [v|]; [|discriminate].
  destruct (embeddings sk self) as [e|]; [|discriminate].
  intros Hscan. apply scan_prefix in Hscan as [n Hn]. eauto.
Qed.


End QueryFacts.

Lemma StronglySorted_snoc {A} (R : A -> A -> Prop) (l : list A) (x : A) :
  StronglySorted R l -> Forall (fun y => R y x) l -> StronglySorted R (l ++ [x]).
Proof.
  induction l as [|y l IH]; intros Hs Hx; cbn.
  - repeat constructor.
  - apply StronglySorted_inv in Hs as [Hs Hy].
    apply Forall_cons in Hx as [Hyx Hx].
    constructor; [apply IH; assumption|].
    apply Forall_app. split; [exact Hy | repeat constructor; exact Hyx].
Qed.

Lemma StronglySorted_rev {A} (R : A -> A -> Prop) (l : list A) :
  StronglySorted R l -> StronglySorted (fun x y => R y x) (rev l).
Proof.
  induction 1 as [|x l Hs IH Hx]; cbn; [constructor|].
  apply StronglySorted_snoc; [exact IH|].
  apply Forall_forall. intros y Hy. rewrite Forall_forall in Hx. apply Hx.
  apply list_elem_of_In. apply list_elem_of_In in Hy. apply in_rev. exact Hy.
Qed.

Lemma StronglySorted_firstn {A} (R : A -> A -> Prop) (n : nat) (l : list A) :
  StronglySorted R l -> StronglySorted R (firstn n l).
Proof.
  intros Hs. revert n. induction Hs as [|x l Hs IH Hx]; intros [|n]; cbn;
    try constructor; [apply IH | apply Forall_take; exact Hx].
Qed.

Section RankedFacts.
Import Retrieval.

(** Candidates picked along indices of non-increasing score have
    non-increasing similarity. *)
Lemma candidates_sorted (exclude_code source_filter : option string)
    (meta : list metadata) (sims : list Q) (indices : list nat) :
  StronglySorted (fun i j => (nth j sims 0 <= nth i sims 0)%Q) indices ->
  StronglySorted (fun h1 h2 => (h_similarity h2 <= h_similarity h1)%Q)
    (candidates exclude_code source_filter meta sims indices).
Proof.
  induction 1 as [|idx rest Hs IH Hidx]; [constructor|].
  assert (Hrest : forall m s, sims !! idx = Some s ->
            Forall (fun h2 => (h_similarity h2 <= h_similarity (make_hit m s))%Q)
              (candidates exclude_code source_filter meta sims rest)).
  { intros m s Es. apply Forall_forall. intros h Hh. apply list_elem_of_In in Hh.
    apply candidates_In in Hh as (j & m' & s' & Hj & _ & Es' & -> & _).
    rewrite Forall_forall in Hidx. apply list_elem_of_In in Hj.
    specialize (Hidx j Hj). cbn in Hidx.
    rewrite (nth_lookup_Some _ _ _ _ Es), (nth_lookup_Some _ _ _ _ Es') in Hidx.
    exact Hidx. }
  cbn [candidates flat_map].
  destruct (meta !! idx) as [m|]; [|exact IH].
  destruct (sims !! idx) as [s|]; [|exact IH].
  destruct (excluded exclude_code m || filtered_out source_filter m); [exact IH|].
  cbn [app]. constructor; [exact IH | exact (Hrest m s eq_refl)].
Qed.

(** Whatever sort stands behind [argsort], as long as it sorts, the hits
    come out in non-increasing order of similarity. *)
Lemma find_similar_with_sorted (sk : sklearn) (argsort : list Q -> list nat)
    (self : MedicalCodingRAG sk) (query : string) (top_k : Z)
    (exclude_code source_filter : option string) (res : list hit) :
  argsort_spec argsort ->
  find_similar_with sk argsort self query top_k exclude_code source_filter = Some res ->
  StronglySorted (fun h1 h2 => (h_similarity h2 <= h_similarity h1)%Q) res.
Proof.
  intros Hspec Hres.
  destruct (find_similar_with_prefix sk _ _ _ _ _ _ _ Hres) as (sims & n & _ & ->).
  apply StronglySorted_firstn. apply candidates_sorted.
  apply (StronglySorted_rev (fun i j => (nth i sims 0 <= nth j sims 0)%Q)).
  apply Hspec.
Qed.



End RankedFacts.







Section MixFacts.
Import Retrieval.

Lemma slice_to_nonneg {A} (l : list A) (k : Z) :
  0 <= k -> slice_to l k = firstn (Z.to_nat k) l.
Proof. intros Hk. unfold slice_to. destruct (Z.leb_spec 0 k); [reflexivity | lia]. Qed.

(** The mixing step on any candidate list, for a non-negative [top_k]. *)
Lemma mix_shape (candidates : list hit) (top_k : Z) :
  0 <= top_k ->
  let reals := List.filter (fun c => String.eqb (h_source c) "real") candidates in
  let synth := List.filter (fun c => String.eqb (h_source c) "synthetic") candidates in
  let real_examples := slice_to reals top_k in
  slice_to
    (if Z.of_nat (length real_examples) <? top_k then
       real_examples ++ slice_to synth (top_k - Z.of_nat (length real_examples))
     else real_examples) top_k
  = firstn (Z.to_nat top_k) reals ++ firstn (Z.to_nat top_k - length reals) synth.
Proof.
  intros Hk reals synth real_examples. subst real_examples.
  rewrite !slice_to_nonneg by exact Hk.
  destruct (Z.ltb_spec (Z.of_nat (length (firstn (Z.to_nat top_k) reals))) top_k) as [Hlt|Hge].
  - rewrite length_firstn in Hlt.
    assert (Hshort : (length reals < Z.to_nat top_k)%nat) by lia.
    rewrite (firstn_all2 reals) by lia.
    rewrite slice_to_nonneg by lia.
    replace (Z.to_nat (top_k - Z.of_nat (length reals)))
      with (Z.to_nat top_k - length reals)%nat by lia.
    apply firstn_all2. rewrite length_app, length_firstn. lia.
  - rewrite length_firstn in Hge.
    assert (Hfull : (Z.to_nat top_k <= length reals)%nat) by lia.
    replace (Z.to_nat top_k - length reals)%nat with 0%nat by lia.
    cbn. rewrite app_nil_r. apply firstn_all2. rewrite length_firstn. lia.
Qed.

End MixFacts.

(** C8.  For a non-negative [top_k], [find_similar_with_rag] asks
    [find_similar] for [3 * top_k] candidates with no source filter and
    returns the first [top_k] "real" candidates followed by "synthetic"
    ones only as far as the real ones fall short of [top_k]: at most
    [top_k] hits, real ones first in ranking order.  It returns whenever
    [find_similar] does.  With [top_k = 3] and the raw ranking [synthetic,
    synthetic, real, real] the result is the two real entries and then the
    first synthetic one, so both real entries precede every synthetic one
    and the second synthetic entry is left out. *)
Theorem diversity_mix (sk : Retrieval.sklearn)
    (rag_engine : Retrieval.MedicalCodingRAG sk) (query : string) (top_k : Z)
    (exclude_code : option string) :
  0 <= top_k ->
  (forall candidates,
     Retrieval.find_similar sk rag_engine query (3 * top_k) exclude_code None
       = Some candidates ->
     let reals :=
       List.filter (fun c => String.eqb (Retrieval.h_source c) "real") candidates in
     let synth :=
       List.filter (fun c => String.eqb (Retrieval.h_source c) "synthetic") candidates in
     exists res,
       Retrieval.find_similar_with_rag sk rag_engine query top_k exclude_code = Some res
       /\ res = firstn (Z.to_nat top_k) reals
                  ++ firstn (Z.to_nat top_k - length reals) synth
       /\ (length res <= Z.to_nat top_k)%nat
       /\ ((Z.to_nat top_k <= length reals)%nat -> res = firstn (Z.to_nat top_k) reals))
  /\ (map Retrieval.h_source
        (default []
           (Retrieval.find_similar Retrieval.table_sklearn
              (Retrieval.example_engine Retrieval.mixed_corpus Retrieval.mixed_scores)
              "cholera" 9 None None))
      = ["synthetic"; "synthetic"; "real"; "real"]%string
      /\ option_map (map Retrieval.h_code)
           (Retrieval.find_similar_with_rag Retrieval.table_sklearn
              (Retrieval.example_engine Retrieval.mixed_corpus Retrieval.mixed_scores)
              "cholera" 3 None)
         = Some ["A00"; "A09"; "A00.0"]%string).
Proof.
  intros Hk. split.
  - intros candidates Hc reals synth. unfold Retrieval.find_similar_with_rag.
    rewrite (Z.mul_comm top_k 3), Hc.
    pose proof (mix_shape candidates top_k Hk) as Hmix. cbv zeta in Hmix.
    fold reals synth in Hmix.
    exists (firstn (Z.to_nat top_k) reals ++ firstn (Z.to_nat top_k - length reals) synth).
    split; [f_equal; exact Hmix|].
    split; [reflexivity|]. split.
    + rewrite length_app, !length_firstn. lia.
    + intros Hfull. replace (Z.to_nat top_k - length reals)%nat with 0%nat by lia.
      cbn. apply app_nil_r.
  - split; vm_compute; reflexivity.
Qed.

Lemma diversity_mix_witness :
  0 <= 3 /\
  exists res,
    Retrieval.find_similar_with_rag Retrieval.table_sklearn
      (Retrieval.example_engine Retrieval.mixed_corpus Retrieval.mixed_scores)
      "cholera" 3 None = Some res
    /\ (length res <= 3)%nat.
Proof.
  split; [lia|].
  destruct (diversity_mix Retrieval.table_sklearn
              (Retrieval.example_engine Retrieval.mixed_corpus Retrieval.mixed_scores)
              "cholera" 3 None) as [H _]; [lia|].
  destruct (Retrieval.find_similar Retrieval.table_sklearn
              (Retrieval.example_engine Retrieval.mixed_corpus Retrieval.mixed_scores)
              "cholera" (3 * 3) None None) as [candidates|] eqn:E.
  - destruct (H candidates eq_refl) as (res & Hres & _ & Hlen & _).
    exists res. split; [exact Hres | exact Hlen].
  - vm_compute in E. discriminate E.
Defined.

(** ** Cache files *)

Section CacheFacts.
Import Retrieval.





Context (sk : sklearn).











End CacheFacts.



(** * Further properties of the code *)

(** ** The controller over many calls *)

Section ControllerRuns.
Import Controller.

(** Three times the size (counted as 1 when below 1) plus the success
    counter grows by at most one per call. *)
Lemma potential_step (self : AdaptiveBatchManager) (r : Q) :
  0 <= consecutive_successes self ->
  0 <= consecutive_successes (adjust_state self r)
  /\ 3 * Z.max 1 (current_batch_size (adjust_state self r))
       + consecutive_successes (adjust_state self r)
     <= 3 * Z.max 1 (current_batch_size self) + consecutive_successes self + 1.
Proof.
  intros Hc. unfold adjust_state. rate_cases r; cbn.
  - destruct (Z_lt_le_dec (current_batch_size self) 0) as [Hneg|Hpos].
    + assert (current_batch_size self / 2 < 0) by (apply Z.div_lt_upper_bound; lia). lia.
    + assert (current_batch_size self / 2 <= current_batch_size self)
        by (apply Z.div_le_upper_bound; lia). lia.
  - destruct (1 <=? consecutive_failures self + 1); cbn; lia.
  - destruct (Z.leb_spec 3 (consecutive_successes self + 1)); cbn; lia.
  - lia.
Qed.

Lemma potential_run (rates : list Q) : forall self : AdaptiveBatchManager,
  0 <= consecutive_successes self ->
  3 * get_size (fst (adjust_all self rates))
  <= 3 * Z.max 1 (current_batch_size self) + consecutive_successes self
     + Z.of_nat (length rates).
Proof.
  induction rates as [|r rates IH]; intros self Hc.
  - cbn [adjust_all fst length]. unfold get_size. lia.
  - destruct (potential_step self r Hc) as (Hc1 & Hp).
    specialize (IH (adjust_state self r) Hc1).
    cbn [adjust_all adjust].
    destruct (adjust_all (adjust_state self r) rates) as [self2 sizes].
    cbn [fst] in *. cbn [length]. unfold get_size in *. lia.
Qed.

(** A run of rates below 0.5 halves the size each time, down to 1. *)
Lemma halving_run (rates : list Q) : forall self : AdaptiveBatchManager,
  Forall (fun r => (r < lit_0_5)%Q) rates ->
  rates <> [] ->
  fst (adjust_all self rates)
  = mkManager (Z.max 1 (current_batch_size self / 2 ^ Z.of_nat (length rates)))
              (max_batch_size self) 0 0.
Proof.
  induction rates as [|r rates IH]; intros self Hall Hne; [contradiction|].
  apply Forall_cons in Hall as [Hr Hall].
  assert (Hstep : adjust_state self r
                  = mkManager (Z.max 1 (current_batch_size self / 2)) (max_batch_size self) 0 0).
  { unfold adjust_state. destruct (Qltb_spec r lit_0_5); [reflexivity | contradiction]. }
  cbn [adjust_all adjust]. rewrite Hstep.
  destruct rates as [|r' rates'].
  - cbn. rewrite Z.pow_1_r. reflexivity.
  - specialize (IH (mkManager (Z.max 1 (current_batch_size self / 2)) (max_batch_size self) 0 0)
                   Hall ltac:(discriminate)).
    destruct (adjust_all _ (r' :: rates')) as [self2 sizes]. cbn [fst] in *.
    rewrite IH. cbn [current_batch_size max_batch_size]. f_equal.
    set (k := Z.of_nat (length (r' :: rates'))).
    assert (Hk : 0 < k) by (unfold k; cbn [length]; lia).
    replace (Z.of_nat (length (r :: r' :: rates'))) with (1 + k)
      by (unfold k; cbn [length]; lia).
    rewrite Z.pow_add_r, Z.pow_1_r by lia.
    assert (Hpow : 2 <= 2 ^ k).
    { change 2 with (2 ^ 1) at 1. apply Z.pow_le_mono_r; lia. }
    destruct (Z_lt_le_dec (current_batch_size self / 2) 1) as [Hsmall|Hbig].
    + rewrite (Z.max_l 1 (current_batch_size self / 2)) by lia.
      rewrite (Z.div_small 1) by lia.
      assert (current_batch_size self / (2 * 2 ^ k) <= 0).
      { rewrite <- Z.div_div by lia.
        apply Z.lt_succ_r. apply Z.div_lt_upper_bound; lia. }
      lia.
    + rewrite (Z.max_r 1 (current_batch_size self / 2)) by lia.
      rewrite Z.div_div by lia. reflexivity.
Qed.

End ControllerRuns.

(** X1.  Growth is slow: starting from a size of at least 1, after [n]
    calls of [adjust] the size is at most the initial size plus [n / 3],
    whatever the rates were. *)
Theorem growth_is_slow (initial_batch_size max_batch_size : Z) (rates : list Q) :
  1 <= initial_batch_size ->
  Controller.get_size
    (fst (Controller.adjust_all (Controller.init initial_batch_size max_batch_size) rates))
  <= initial_batch_size + Z.of_nat (length rates) / 3.
Proof.
  intros Hs.
  pose proof (potential_run rates (Controller.init initial_batch_size max_batch_size)) as H.
  cbn [Controller.init Controller.current_batch_size Controller.consecutive_successes] in H.
  specialize (H ltac:(lia)).
  assert (Hdiv : 3 * (Z.of_nat (length rates) / 3) <= Z.of_nat (length rates))
    by (apply Z.mul_div_le; lia).
  pose proof (Z.mod_pos_bound (Z.of_nat (length rates)) 3 ltac:(lia)) as Hmod.
  pose proof (Z.div_mod (Z.of_nat (length rates)) 3 ltac:(lia)) as Hdm.
  lia.
Qed.

Lemma growth_is_slow_witness :
  1 <= 5 /\
  Controller.get_size
    (fst (Controller.adjust_all (Controller.init 5 20)
            [Controller.lit_0_95; Controller.lit_0_95; Controller.lit_0_95;
             Controller.lit_0_95]))
  <= 5 + Z.of_nat 4 / 3.
Proof.
  split; [lia|].
  apply (growth_is_slow 5 20
           [Controller.lit_0_95; Controller.lit_0_95; Controller.lit_0_95;
            Controller.lit_0_95]).
  lia.
Defined.

(** X2.  Severe degradation is answered at once: after [k >= 1] calls in a
    row with a rate below 0.5, the size is the size before them divided by
    [2^k] (floor), but at least 1, and both counters are 0. *)
Theorem repeated_halving (self : Controller.AdaptiveBatchManager) (rates : list Q) :
  Forall (fun r => (r < Controller.lit_0_5)%Q) rates ->
  rates <> [] ->
  fst (Controller.adjust_all self rates)
  = Controller.mkManager
      (Z.max 1 (Controller.current_batch_size self / 2 ^ Z.of_nat (length rates)))
      (Controller.max_batch_size self) 0 0.
Proof. apply halving_run. Qed.

Lemma repeated_halving_witness :
  Forall (fun r => (r < Controller.lit_0_5)%Q) [Controller.lit_0_3; Controller.lit_0_3] /\
  fst (Controller.adjust_all (Controller.mkManager 18 20 2 0)
         [Controller.lit_0_3; Controller.lit_0_3])
  = Controller.mkManager (Z.max 1 (18 / 2 ^ Z.of_nat 2)) 20 0 0.
Proof.
  assert (H : Forall (fun r => (r < Controller.lit_0_5)%Q)
                [Controller.lit_0_3; Controller.lit_0_3]).
  { repeat constructor. }
  split; [exact H|].
  apply (repeated_halving (Controller.mkManager 18 20 2 0)
           [Controller.lit_0_3; Controller.lit_0_3] H).
  discriminate.
Defined.

Section SeriesFacts.
Import PluginAdapter.

Lemma adapter_series_step (a : adapter) (r : Q) :
  batch_size_series (_adjust_batch_size a r)
  = if current_batch_size (_adjust_batch_size a r) =? current_batch_size a
    then batch_size_series a
    else current_batch_size (_adjust_batch_size a r) :: batch_size_series a.
Proof.
  unfold _adjust_batch_size.
  rate_cases r; cbn; try reflexivity.
  - destruct (1 <=? consecutive_failures a + 1); reflexivity.
  - destruct (3 <=? consecutive_successes a + 1); reflexivity.
Qed.

Lemma adapter_series_run (rates : list Q) : forall a : adapter,
  batch_size_series (adjust_all a rates)
  = rev (TimeSeries.changes (current_batch_size a)
           (snd (Controller.adjust_all (manager_of a) rates)))
    ++ batch_size_series a.
Proof.
  induction rates as [|r rates IH]; intros a; [reflexivity|].
  change (adjust_all a (r :: rates)) with (adjust_all (_adjust_batch_size a r) rates).
  rewrite IH, adapter_simulates, adapter_series_step.
  cbn [Controller.adjust_all Controller.adjust].
  destruct (Controller.adjust_all (Controller.adjust_state (manager_of a) r) rates)
    as [self2 sizes] eqn:E.
  cbn [snd TimeSeries.changes].
  assert (Hsize : Controller.get_size (Controller.adjust_state (manager_of a) r)
                  = current_batch_size (_adjust_batch_size a r)).
  { rewrite <- adapter_simulates. reflexivity. }
  rewrite Hsize.
  destruct (current_batch_size (_adjust_batch_size a r) =? current_batch_size a).
  - reflexivity.
  - cbn [rev]. rewrite <- app_assoc. reflexivity.
Qed.

End SeriesFacts.

(** X3.  The adapter writes a [batch_size] point to the time series exactly
    when a call changed the size: read oldest first, the series of an
    adapter started at size 1 is the trace of sizes its controller went
    through with every value equal to its predecessor left out. *)
Theorem series_records_changes (rates : list Q) :
  rev (PluginAdapter.batch_size_series
         (PluginAdapter.adjust_all PluginAdapter.init rates))
  = TimeSeries.changes 1
      (snd (Controller.adjust_all (Controller.init 1 20) rates)).
Proof.
  rewrite (adapter_series_run rates PluginAdapter.init).
  cbn [PluginAdapter.init PluginAdapter.batch_size_series PluginAdapter.current_batch_size].
  rewrite app_nil_r, rev_involutive. reflexivity.
Qed.

(** ** Success rates as floats *)

Lemma zrange_In (lo : Z) (len : nat) (z : Z) :
  lo <= z < lo + Z.of_nat len -> In z (Float.zrange lo len).
Proof.
  intros Hz. unfold Float.zrange. apply in_map_iff.
  exists (Z.to_nat (z - lo)). split; [lia|]. apply in_seq. lia.
Qed.

Lemma tests_exact_checked : Float.tests_exact_upto 100 = true.
Proof. vm_compute. reflexivity. Qed.

(** X4.  For a batch of at most 100 items the float rate
    [items_succeeded / items_attempted] passes each test of the controller
    exactly when the fraction itself does: it is below [0.5] when fewer
    than half succeeded, below [0.7] when fewer than seven in ten did, and
    at least [0.9] when at least nine in ten did.  (So 9 successes out of
    10 count as [>= 0.9] and 7 out of 10 do not count as [< 0.7], although
    the literals [0.9] and [0.7] are not the fractions 9/10 and 7/10.) *)
Theorem rate_tests_exact (items_succeeded items_attempted : Z) :
  1 <= items_attempted <= 100 ->
  0 <= items_succeeded <= items_attempted ->
  let rate := Float.success_rate items_succeeded items_attempted in
  ((rate < Controller.lit_0_5)%Q <-> 2 * items_succeeded < items_attempted)
  /\ ((rate < Controller.lit_0_7)%Q <-> 10 * items_succeeded < 7 * items_attempted)
  /\ ((Controller.lit_0_9 <= rate)%Q <-> 9 * items_attempted <= 10 * items_succeeded).
Proof.
  intros Hn Hs rate.
  pose proof tests_exact_checked as Hall. unfold Float.tests_exact_upto in Hall.
  rewrite forallb_forall in Hall.
  specialize (Hall items_attempted (zrange_In 1 100 items_attempted ltac:(lia))).
  rewrite forallb_forall in Hall.
  specialize (Hall items_succeeded
               (zrange_In 0 (S (Z.to_nat items_attempted)) items_succeeded ltac:(lia))).
  unfold Float.tests_exact in Hall. fold rate in Hall.
  apply andb_true_iff in Hall as [Hall H9]. apply andb_true_iff in Hall as [H5 H7].
  apply Bool.eqb_prop in H5, H7, H9.
  repeat split.
  - intros H. apply Z.ltb_lt. rewrite <- H5.
    destruct (Qltb_spec rate Controller.lit_0_5); [reflexivity | contradiction].
  - intros H. apply Z.ltb_lt in H. rewrite <- H5 in H.
    destruct (Qltb_spec rate Controller.lit_0_5); [assumption | discriminate].
  - intros H. apply Z.ltb_lt. rewrite <- H7.
    destruct (Qltb_spec rate Controller.lit_0_7); [reflexivity | contradiction].
  - intros H. apply Z.ltb_lt in H. rewrite <- H7 in H.
    destruct (Qltb_spec rate Controller.lit_0_7); [assumption | discriminate].
  - intros H. apply Z.leb_le. rewrite <- H9.
    destruct (Qgeb_spec rate Controller.lit_0_9); [reflexivity | contradiction].
  - intros H. apply Z.leb_le in H. rewrite <- H9 in H.
    destruct (Qgeb_spec rate Controller.lit_0_9); [assumption | discriminate].
Qed.

Lemma rate_tests_exact_witness :
  1 <= 10 <= 100 /\ 0 <= 9 <= 10 /\
  ((Controller.lit_0_9 <= Float.success_rate 9 10)%Q <-> 9 * 10 <= 10 * 9).
Proof.
  split; [lia|]. split; [lia|].
  apply (rate_tests_exact 9 10); lia.
Defined.

(** ** Loading the catalog *)

Section CatalogFacts.
Import Store Catalog.

Lemma fold_max_ge (l : list Z) : forall (a : Z),
  a <= fold_left Z.max l a /\ Forall (fun x => x <= fold_left Z.max l a) l.
Proof.
  induction l as [|x l IH]; intros a; cbn [fold_left].
  - split; [lia | constructor].
  - destruct (IH (Z.max a x)) as [H1 H2]. split; [lia|].
    constructor; [lia | exact H2].
Qed.

(** The rowid an insert gets is larger than every rowid in the table. *)
Lemma next_rowid_fresh {row} (rowid : row -> Z) (t : table row) (r : row) :
  In r (rows t) -> rowid r < next_rowid rowid t.
Proof.
  intros Hin. unfold next_rowid.
  destruct (fold_max_ge (map rowid (rows t)) (seq t)) as [_ Hall].
  rewrite Forall_forall in Hall.
  specialize (Hall (rowid r)). cbn in Hall.
  assert (rowid r <= fold_left Z.max (map rowid (rows t)) (seq t)).
  { apply Hall. apply list_elem_of_In. apply in_map. exact Hin. }
  lia.
Qed.

Lemma code_exists_spec (code : string) (t : table icd10_code) :
  code_exists code t = true <-> In code (map c_code (rows t)).
Proof.
  unfold code_exists. rewrite existsb_exists, in_map_iff. split.
  - intros (c & Hin & Heq). apply String.eqb_eq in Heq. eauto.
  - intros (c & Heq & Hin). exists c. split; [exact Hin|]. apply String.eqb_eq. exact Heq.
Qed.

(** What one turn of the loop does to the counters and the rows. *)
Lemma import_row_effect (cat : catalog) (imported skipped : Z) (row : csv_row) :
  let '(cat', imported', skipped') := import_row (cat, imported, skipped) row in
  imported' + skipped' = imported + skipped + 1
  /\ (exists new, rows (cat_codes cat') = rows (cat_codes cat) ++ new
                  /\ Z.of_nat (length new) = imported' - imported)
  /\ (well_formed cat -> well_formed cat')
  /\ (forall code description, csv_code row = Some code ->
        csv_description row = Some description ->
        code_exists code (cat_codes cat') = true).
Proof.
  assert (Hskip : imported + (skipped + 1) = imported + skipped + 1
            /\ (exists new, rows (cat_codes cat) = rows (cat_codes cat) ++ new
                            /\ Z.of_nat (length new) = imported - imported)
            /\ (well_formed cat -> well_formed cat)).
  { split; [lia|]. split; [|tauto].
    exists []. rewrite app_nil_r. split; [reflexivity | cbn; lia]. }
  unfold import_row.
  destruct (csv_code row) as [code|] eqn:Ec.
  2:{ destruct Hskip as (H1 & H2 & H3). split; [exact H1|]. split; [exact H2|].
      split; [exact H3 | discriminate]. }
  destruct (csv_description row) as [description|] eqn:Ed.
  2:{ destruct Hskip as (H1 & H2 & H3). split; [exact H1|]. split; [exact H2|].
      split; [exact H3 | discriminate]. }
  destruct (code_exists code (cat_codes cat)) eqn:Ex.
  - destruct Hskip as (H1 & H2 & H3). split; [exact H1|]. split; [exact H2|].
    split; [exact H3|]. intros code' description' [= <-] _. exact Ex.
  - cbn [cat_codes cat_status rows]. split; [lia|]. split; [|split].
    + eexists. split; [reflexivity | cbn; lia].
    + intros (Hid & Hcode & Hst). unfold well_formed.
      cbn [cat_codes cat_status rows]. split; [|split].
      * rewrite map_app. cbn [map].
        apply NoDup_app. split; [exact Hid|]. split; [|apply NoDup_singleton].
        intros id Hin Hnew. apply list_elem_of_In in Hin.
        apply list_elem_of_singleton in Hnew. subst id.
        apply in_map_iff in Hin as (c & Hc & Hin).
        pose proof (next_rowid_fresh c_id (cat_codes cat) c Hin) as Hf.
        rewrite Hc in Hf. exact (Z.lt_irrefl _ Hf).
      * rewrite map_app. cbn [map].
        apply NoDup_app. split; [exact Hcode|]. split; [|apply NoDup_singleton].
        intros code' Hin Hnew. apply list_elem_of_In in Hin.
        apply list_elem_of_singleton in Hnew. subst code'.
        apply code_exists_spec in Hin. cbn [c_code] in Hin. congruence.
      * rewrite Hst, map_app. reflexivity.
    + intros code' description' [= <-] _. apply code_exists_spec.
      cbn [rows]. rewrite map_app. apply in_or_app. right. left. reflexivity.
Qed.

(** A run of the loop from any counters. *)
Lemma import_rows_effect (csv : list csv_row) :
  forall (cat : catalog) (imported skipped : Z),
  let '(cat', imported', skipped') := fold_left import_row csv (cat, imported, skipped) in
  imported' + skipped' = imported + skipped + Z.of_nat (length csv)
  /\ (exists new, rows (cat_codes cat') = rows (cat_codes cat) ++ new
                  /\ Z.of_nat (length new) = imported' - imported)
  /\ (well_formed cat -> well_formed cat')
  /\ (forall row code description, In row csv -> csv_code row = Some code ->
        csv_description row = Some description ->
        code_exists code (cat_codes cat') = true).
Proof.
  induction csv as [|row csv IH]; intros cat imported skipped.
  - cbn [fold_left length]. split; [lia|]. split; [|split; [tauto|]].
    + exists []. rewrite app_nil_r. split; [reflexivity | cbn; lia].
    + intros row code description [].
  - cbn [fold_left].
    pose proof (import_row_effect cat imported skipped row) as Hrow.
    destruct (import_row (cat, imported, skipped) row) as [[cat1 imported1] skipped1].
    destruct Hrow as (Hc1 & (new1 & Hn1 & Hl1) & Hw1 & He1).
    specialize (IH cat1 imported1 skipped1).
    destruct (fold_left import_row csv (cat1, imported1, skipped1))
      as [[cat2 imported2] skipped2].
    destruct IH as (Hc2 & (new2 & Hn2 & Hl2) & Hw2 & He2).
    split; [cbn [length]; lia|]. split; [|split; [tauto|]].
    + exists (new1 ++ new2). rewrite Hn2, Hn1, <- app_assoc.
      split; [reflexivity|]. rewrite length_app. lia.
    + intros row' code description [<-|Hin] Hcode Hdesc.
      * apply code_exists_spec. rewrite Hn2, map_app. apply in_or_app. left.
        apply code_exists_spec. exact (He1 code description Hcode Hdesc).
      * exact (He2 row' code description Hin Hcode Hdesc).
Qed.

(** Rows whose codes are all present leave the catalog alone. *)
Lemma import_rows_all_skipped (csv : list csv_row) (cat : catalog) :
  (forall row code description, In row csv -> csv_code row = Some code ->
     csv_description row = Some description ->
     code_exists code (cat_codes cat) = true) ->
  forall imported skipped,
  fold_left import_row csv (cat, imported, skipped)
  = (cat, imported, skipped + Z.of_nat (length csv)).
Proof.
  induction csv as [|row csv IH]; intros Hall imported skipped.
  - cbn. rewrite Z.add_0_r. reflexivity.
  - cbn [fold_left].
    assert (Hrow : import_row (cat, imported, skipped) row = (cat, imported, skipped + 1)).
    { unfold import_row.
      destruct (csv_code row) as [code|] eqn:Ec; [|reflexivity].
      destruct (csv_description row) as [description|] eqn:Ed; [|reflexivity].
      rewrite (Hall row code description (or_introl eq_refl) Ec Ed). reflexivity. }
    rewrite Hrow, IH.
    + f_equal. cbn [length]. lia.
    + intros row' code description Hin. apply Hall. right. exact Hin.
Qed.

(** With unique ids, a code of the catalog meets exactly one status row. *)
Lemma one_status_row (l : list icd10_code) (c : icd10_code) :
  NoDup (map c_id l) -> In c l ->
  map (fun _ : processing_status_row => c)
      (List.filter (fun ps => (ps_code_id ps =? c_id c) && negb (ps_processed ps))
                   (map (fun c => mkStatus (c_id c) false) l))
  = [c].
Proof.
  induction l as [|x l IH]; intros Hnd Hin; [destruct Hin|].
  cbn [map] in Hnd. apply NoDup_cons in Hnd as [Hx Hnd].
  cbn [map List.filter ps_code_id ps_processed negb].
  rewrite andb_true_r.
  destruct (Z.eqb_spec (c_id x) (c_id c)) as [Heq|Hne].
  - cbn [map]. f_equal.
    replace (List.filter _ _) with (@nil processing_status_row); [reflexivity|].
    symmetry. clear IH Hin Hnd. induction l as [|y l IHl]; [reflexivity|].
    cbn [map List.filter ps_code_id ps_processed negb]. rewrite andb_true_r.
    destruct (Z.eqb_spec (c_id y) (c_id c)) as [Hy|Hy].
    + exfalso. apply Hx. cbn [map]. rewrite Heq, <- Hy. apply list_elem_of_here.
    + apply IHl. intros H. apply Hx. cbn [map]. apply list_elem_of_further. exact H.
  - destruct Hin as [->|Hin]; [contradiction|]. exact (IH Hnd Hin).
Qed.

Lemma filter_none {A} (f : A -> bool) (l : list A) :
  (forall x, In x l -> f x = false) -> List.filter f l = [].
Proof.
  induction l as [|x l IH]; intros Hf; [reflexivity|].
  cbn. rewrite (Hf x (or_introl eq_refl)). apply IH.
  intros y Hy. apply Hf. right. exact Hy.
Qed.

Lemma flat_map_singletons {A} (f : A -> list A) (l : list A) :
  (forall x, In x l -> f x = [x]) -> flat_map f l = l.
Proof.
  induction l as [|x l IH]; intros Hf; [reflexivity|].
  cbn [flat_map]. rewrite (Hf x (or_introl eq_refl)). cbn. f_equal.
  apply IH. intros y Hy. apply Hf. right. exact Hy.
Qed.

Lemma has_prediction_ids (self : MedicalCodingDB) (name : string) (c : icd10_code) :
  has_prediction self name c = true
  <-> In (c_id c)
        (map mp_code_id
           (List.filter (fun r => String.eqb (mp_model_name r) name)
                        (rows (model_predictions self)))).
Proof.
  unfold has_prediction. rewrite existsb_exists, in_map_iff. split.
  - intros (r & Hin & Hk). apply same_key_spec in Hk as [Hid Hm].
    exists r. split; [exact Hid|]. apply filter_In. split; [exact Hin|].
    apply String.eqb_eq. exact Hm.
  - intros (r & Hid & Hin). apply filter_In in Hin as [Hin Hm].
    exists r. split; [exact Hin|]. apply same_key_spec.
    split; [exact Hid | apply String.eqb_eq; exact Hm].
Qed.

Lemma optimal_batch_size_update (config : list model_config) (model model' : string)
    (new_size : Z) :
  get_optimal_batch_size (update_optimal_batch_size config model new_size) model'
  = if String.eqb model' model then
      if configured config model then new_size else 10
    else get_optimal_batch_size config model'.
Proof.
  unfold get_optimal_batch_size, update_optimal_batch_size, configured.
  induction config as [|r config IH].
  - cbn. destruct (String.eqb model' model); reflexivity.
  - cbn [map List.filter existsb].
    destruct (String.eqb_spec (mc_model_name r) model) as [Hr|Hr].
    + cbn [mc_model_name orb].
      destruct (String.eqb_spec model' model) as [Hm|Hm].
      * subst model'. rewrite Hr, String.eqb_refl. reflexivity.
      * destruct (String.eqb_spec (mc_model_name r) model') as [Hr'|Hr'];
          [congruence|]. rewrite IH.
        destruct (String.eqb_spec model' model); [contradiction | reflexivity].
    + cbn [orb].
      destruct (String.eqb_spec (mc_model_name r) model') as [Hr'|Hr'].
      * destruct (String.eqb_spec model' model) as [Hm|Hm]; [congruence | reflexivity].
      * exact IH.
Qed.

End CatalogFacts.

(** X5.  [import_catalog] returns counters that add up to the number of CSV
    rows; it only appends to [icd10_codes], exactly [imported] rows; and a
    catalog with unique ids, unique codes and one unprocessed status row
    per code still has all three afterwards. *)
Theorem import_catalog_counts (cat : Catalog.catalog) (csv : list Catalog.csv_row) :
  let '(cat', imported, skipped) := Catalog.import_catalog cat csv in
  imported + skipped = Z.of_nat (length csv)
  /\ (exists new,
        Store.rows (Catalog.cat_codes cat') = Store.rows (Catalog.cat_codes cat) ++ new
        /\ Z.of_nat (length new) = imported)
  /\ (Catalog.well_formed cat -> Catalog.well_formed cat').
Proof.
  unfold Catalog.import_catalog.
  pose proof (import_rows_effect csv cat 0 0) as H.
  destruct (fold_left Catalog.import_row csv (cat, 0, 0)) as [[cat' imported] skipped].
  destruct H as (Hc & (new & Hn & Hl) & Hw & _).
  split; [lia|]. split; [|exact Hw].
  exists new. split; [exact Hn | lia].
Qed.

Lemma import_catalog_counts_witness :
  Catalog.well_formed Catalog.empty_catalog /\
  Catalog.well_formed
    (fst (fst (Catalog.import_catalog Catalog.empty_catalog Catalog.example_rows))).
Proof.
  assert (Hwf : Catalog.well_formed Catalog.empty_catalog).
  { repeat split; constructor. }
  split; [exact Hwf|].
  pose proof (import_catalog_counts Catalog.empty_catalog Catalog.example_rows) as H.
  destruct (Catalog.import_catalog Catalog.empty_catalog Catalog.example_rows)
    as [[cat' imported] skipped].
  destruct H as (_ & _ & Hw). exact (Hw Hwf).
Defined.

(** X6.  Importing the same rows a second time changes nothing: every row
    is skipped and the catalog is the one the first import left. *)
Theorem import_catalog_twice (cat : Catalog.catalog) (csv : list Catalog.csv_row) :
  let cat' := fst (fst (Catalog.import_catalog cat csv)) in
  Catalog.import_catalog cat' csv = (cat', 0, Z.of_nat (length csv)).
Proof.
  intros cat'. subst cat'. unfold Catalog.import_catalog.
  pose proof (import_rows_effect csv cat 0 0) as H.
  destruct (fold_left Catalog.import_row csv (cat, 0, 0)) as [[cat' imported] skipped].
  destruct H as (_ & _ & _ & He). cbn [fst].
  rewrite (import_rows_all_skipped csv cat' He 0 0). reflexivity.
Qed.

(** X7.  Nothing marks a code processed, so on a well-formed catalog
    [get_unprocessed_codes] without a model returns the first [limit]
    codes of the whole catalog, each once, whatever predictions exist. *)
Theorem unprocessed_without_model (cat : Catalog.catalog)
    (predictions : Store.table Store.model_prediction) (limit : Z) :
  Catalog.well_formed cat ->
  Store.get_unprocessed_codes (Catalog.db_of cat predictions) limit None
  = Store.sql_limit limit (Store.rows (Catalog.cat_codes cat)).
Proof.
  intros (Hid & _ & Hst). unfold Store.get_unprocessed_codes, Catalog.db_of.
  cbn [Store.icd10_codes Store.processing_status]. f_equal.
  apply flat_map_singletons. intros c Hc. rewrite Hst.
  apply one_status_row; assumption.
Qed.

Lemma unprocessed_without_model_witness :
  let cat := fst (fst (Catalog.import_catalog Catalog.empty_catalog Catalog.example_rows)) in
  Catalog.well_formed cat /\
  map Store.c_code
    (Store.get_unprocessed_codes (Catalog.db_of cat Store.empty_table) 100 None)
  = ["A00"; "A01"]%string.
Proof.
  intros cat.
  assert (Hwf : Catalog.well_formed cat).
  { subst cat. vm_compute. repeat split.
    - apply (proj2 (NoDup_ListNoDup _)). repeat constructor; cbn; intuition discriminate.
    - apply (proj2 (NoDup_ListNoDup _)). repeat constructor; cbn; intuition discriminate. }
  split; [exact Hwf|].
  rewrite (unprocessed_without_model cat Store.empty_table 100 Hwf).
  reflexivity.
Defined.

(** X8.  Resuming by offset agrees with the anti-join as long as the
    predictions of the model cover exactly the first [k] codes of the
    catalog: [_get_processed_count] is then [k], and the page
    [get_next_batch] reads at that offset holds the codes and descriptions
    of the page [get_unprocessed_codes] returns for the model. *)
Theorem offset_resume_agrees (self : Store.MedicalCodingDB) (name : string)
    (k : nat) (batch_size : Z) :
  name <> ""%string ->
  NoDup (map Store.c_id (Store.icd10_codes self)) ->
  (k <= length (Store.icd10_codes self))%nat ->
  (forall id,
     In id (map Store.mp_code_id
              (List.filter (fun r => String.eqb (Store.mp_model_name r) name)
                           (Store.rows (Store.model_predictions self))))
     <-> In id (map Store.c_id (firstn k (Store.icd10_codes self)))) ->
  Catalog._get_processed_count self name = Z.of_nat k
  /\ fst (Catalog.get_next_batch self (Catalog._get_processed_count self name) batch_size)
     = map (fun c => (Store.c_code c, Store.c_description c))
           (Store.get_unprocessed_codes self batch_size (Some name)).
Proof.
  intros Hname Hnd Hk Hcover.
  set (codes := Store.icd10_codes self) in *.
  assert (Hcount : Catalog._get_processed_count self name = Z.of_nat k).
  { unfold Catalog._get_processed_count. f_equal.
    transitivity (length (map Store.c_id (firstn k codes))).
    - apply Permutation_length. apply NoDup_Permutation.
      + apply NoDup_remove_dups.
      + apply NoDup_map_firstn. exact Hnd.
      + intros id. rewrite elem_of_remove_dups, !list_elem_of_In. apply Hcover.
    - rewrite length_map, length_firstn. lia. }
  split; [exact Hcount|]. rewrite Hcount.
  rewrite get_unprocessed_codes_model by exact Hname.
  unfold Catalog.get_next_batch, Catalog.sql_offset. cbn [fst].
  rewrite Nat2Z.id. fold codes. f_equal. f_equal.
  unfold Store.pending. fold codes.
  assert (Hdisj : forall c, In c (skipn k codes) ->
                            ~ In (Store.c_id c) (map Store.c_id (firstn k codes))).
  { intros c Hc Hin. rewrite <- (firstn_skipn k codes), map_app in Hnd.
    apply NoDup_app in Hnd as (_ & Hd & _). apply (Hd (Store.c_id c)).
    - apply list_elem_of_In. exact Hin.
    - apply list_elem_of_In. apply in_map. exact Hc. }
  rewrite <- (firstn_skipn k codes) at 2. rewrite List.filter_app.
  replace (List.filter _ (firstn k codes)) with (@nil Store.icd10_code).
  - cbn [app]. symmetry. apply forallb_filter_id. apply forallb_forall.
    intros c Hc. apply negb_true_iff, not_true_iff_false.
    rewrite has_prediction_ids, Hcover. exact (Hdisj c Hc).
  - symmetry. apply filter_none. intros c Hc. apply negb_false_iff.
    apply has_prediction_ids. apply Hcover. apply in_map. exact Hc.
Qed.

Lemma offset_resume_agrees_witness :
  let self := Store.save_all "claude" Store.example_db
                [Store.example_args 1; Store.example_args 2] in
  Catalog._get_processed_count self "claude" = Z.of_nat 2
  /\ fst (Catalog.get_next_batch self (Catalog._get_processed_count self "claude") 5)
     = map (fun c => (Store.c_code c, Store.c_description c))
           (Store.get_unprocessed_codes self 5 (Some "claude"%string)).
Proof.
  intros self.
  apply (offset_resume_agrees self "claude" 2 5).
  - discriminate.
  - apply (bool_decide_unpack _). vm_compute. exact I.
  - vm_compute. lia.
  - intros id. vm_compute. tauto.
Defined.

(** X9.  [update_optimal_batch_size] followed by [get_optimal_batch_size]:
    a configured model reads back the size just written, a model without a
    row still reads the default 10 (the update matched nothing), and every
    other model reads what it read before. *)
Theorem optimal_batch_size_round_trip (config : list Catalog.model_config)
    (model model' : string) (new_size : Z) :
  Catalog.get_optimal_batch_size
    (Catalog.update_optimal_batch_size config model new_size) model'
  = if String.eqb model' model then
      if Catalog.configured config model then new_size else 10
    else Catalog.get_optimal_batch_size config model'.
Proof. apply optimal_batch_size_update. Qed.
